(** * DevDash MCP server: the tool catalog and the dispatcher

    A shallow embedding of [tools/mcp/devdash_mcp/server.py]: the catalog
    returned by [list_tools] and the dispatcher [call_tool], which turns a
    tool name and an argument mapping into one HTTP GET against the DevTools
    API and translates the answer into content blocks.

    Text is modelled by [string] (one [ascii] per character, code points
    0..255).  JSON values are an inductive type; a JSON object is an
    association list in insertion order, as a Python [dict] is.  JSON numbers
    of the model are the integers: a literal with a fraction or an exponent
    denotes a Python [float] and lies outside the embedding.

    The network is a parameter: a function from the request to what comes
    back, a response or an exception.  [call_tool] returns what its caller
    gets (a list of content blocks, or an exception that escaped) together
    with the requests it sent. *)

From Stdlib Require Import ZArith NArith List String Ascii Bool Arith Lia.
Import ListNotations.

Set Warnings "-register-all".

Open Scope string_scope.

(** ** JSON values and Python dictionaries *)

Inductive json : Type :=
| JNull
| JBool (b : bool)
| JInt (n : Z)
| JString (s : string)
| JArray (items : list json)
| JObject (members : list (string * json)).

(** A [dict] with string keys, in insertion order. *)
Definition dict : Type := list (string * json).

(** [d.get(k)] *)
Fixpoint dict_get (d : dict) (k : string) : option json :=
  match d with
  | [] => None
  | (k', v) :: d' => if (k' =? k)%string then Some v else dict_get d' k
  end.

(** [k in d] *)
Definition dict_contains (d : dict) (k : string) : bool :=
  match dict_get d k with Some _ => true | None => false end.

(** [d[k] = v]: an existing key keeps its place, a new one goes last. *)
Fixpoint dict_set (d : dict) (k : string) (v : json) : dict :=
  match d with
  | [] => [(k, v)]
  | (k', v') :: d' =>
      if (k' =? k)%string then (k', v) :: d' else (k', v') :: dict_set d' k v
  end.

(** [dict(pairs)] *)
Definition dict_of_pairs (pairs : list (string * json)) : dict :=
  fold_left (fun d kv => dict_set d (fst kv) (snd kv)) pairs [].

(** Python truthiness, [bool(v)]. *)
Definition truthy (v : json) : bool :=
  match v with
  | JNull => false
  | JBool b => b
  | JInt n => negb (n =? 0)%Z
  | JString s => negb (s =? "")%string
  | JArray l => match l with [] => false | _ => true end
  | JObject l => match l with [] => false | _ => true end
  end.

(** [type(v).__name__] *)
Definition type_name (v : json) : string :=
  match v with
  | JNull => "NoneType"
  | JBool _ => "bool"
  | JInt _ => "int"
  | JString _ => "str"
  | JArray _ => "list"
  | JObject _ => "dict"
  end.

(** ** Characters and decimal numerals *)

Definition code (c : ascii) : N := N_of_ascii c.

Definition is_digit (c : ascii) : bool :=
  ((48 <=? code c) && (code c <=? 57))%N.

Definition digit_val (c : ascii) : Z := Z.of_N (code c) - 48.

Definition digit_char (d : Z) : ascii := ascii_of_N (Z.to_N (48 + d)).

(** The decimal digits of [n], most significant first, in front of [acc].
    [fuel] bounds the number of digits. *)
Fixpoint digits_upto (fuel : nat) (n : Z) (acc : string) : string :=
  match fuel with
  | O => acc
  | S fuel' =>
      let acc' := String (digit_char (n mod 10)) acc in
      if (n / 10 =? 0)%Z then acc' else digits_upto fuel' (n / 10) acc'
  end.

Definition str_nat (n : Z) : string :=
  digits_upto (S (Z.to_nat (Z.log2 n))) n "".

(** [str(n)] for an [int]. *)
Definition str_int (n : Z) : string :=
  if (n <? 0)%Z then String "-" (str_nat (- n)) else str_nat n.

(** ** [json.dumps(v, indent=2)] *)

Definition hex_digit (n : N) : ascii :=
  if (n <? 10)%N then ascii_of_N (48 + n) else ascii_of_N (87 + n).

(** [ESCAPE_ASCII]: the quote, the backslash and everything outside the
    printable range space..tilde is escaped. *)
Definition escape_char (c : ascii) : string :=
  if (c =? "034")%char then String "\" (String "034" "")
  else if (c =? "\")%char then "\\"
  else if (c =? "010")%char then "\n"
  else if (c =? "013")%char then "\r"
  else if (c =? "009")%char then "\t"
  else if (c =? "008")%char then "\b"
  else if (c =? "012")%char then "\f"
  else if ((32 <=? code c) && (code c <=? 126))%N then String c ""
  else "\u00" ++ String (hex_digit (code c / 16)) (String (hex_digit (code c mod 16)) "").

Fixpoint escape_chars (s : string) : string :=
  match s with
  | "" => ""
  | String c s' => escape_char c ++ escape_chars s'
  end.

(** [encode_basestring_ascii] *)
Definition encode_string (s : string) : string :=
  String "034" (escape_chars s ++ String "034" "").

Fixpoint spaces (n : nat) : string :=
  match n with O => "" | S n' => String " " (spaces n') end.

(** ['\n' + _indent * level] with [_indent = ' ' * 2] *)
Definition newline_indent (level : nat) : string :=
  String "010" (spaces (2 * level)).

(** [_iterencode], joined: the text [json.dumps] writes for [v] when the
    enclosing containers are [level] deep. *)
Fixpoint iterencode (v : json) (level : nat) {struct v} : string :=
  match v with
  | JNull => "null"
  | JBool true => "true"
  | JBool false => "false"
  | JInt n => str_int n
  | JString s => encode_string s
  | JArray items =>
      match items with
      | [] => "[]"
      | _ =>
          "[" ++ newline_indent (S level)
          ++ concat ("," ++ newline_indent (S level))
               (map (fun x => iterencode x (S level)) items)
          ++ newline_indent level ++ "]"
      end
  | JObject members =>
      match members with
      | [] => "{}"
      | _ =>
          "{" ++ newline_indent (S level)
          ++ concat ("," ++ newline_indent (S level))
               (map (fun kv => let '(k, x) := kv in
                               encode_string k ++ ": " ++ iterencode x (S level))
                    members)
          ++ newline_indent level ++ "}"
      end
  end.

Definition json_dumps_indent2 (v : json) : string := iterencode v 0.

(** ** [json.loads] *)

Definition is_ws (c : ascii) : bool :=
  (c =? " ")%char || (c =? "009")%char || (c =? "010")%char || (c =? "013")%char.

Fixpoint skip_ws (s : string) : string :=
  match s with
  | "" => ""
  | String c r => if is_ws c then skip_ws r else s
  end.

Fixpoint scan_digits (s : string) (acc : Z) : Z * string :=
  match s with
  | "" => (acc, "")
  | String c r =>
      if is_digit c then scan_digits r (10 * acc + digit_val c)%Z else (acc, s)
  end.

(** The integer part of [NUMBER_RE]: a single 0, or a digit 1..9 followed by
    any digits. *)
Definition scan_nat (s : string) : option (Z * string) :=
  match s with
  | "" => None
  | String c r =>
      if (c =? "0")%char then Some (0%Z, r)
      else if is_digit c then Some (scan_digits r (digit_val c))
      else None
  end.

(** An optional minus sign, then [scan_nat]. *)
Definition scan_int (s : string) : option (Z * string) :=
  match s with
  | String "-" r =>
      match scan_nat r with
      | Some (n, r') => Some ((- n)%Z, r')
      | None => None
      end
  | _ => scan_nat s
  end.

Definition starts_with_digit (s : string) : bool :=
  match s with String c _ => is_digit c | "" => false end.

(** The rest of [NUMBER_RE]: a fraction (a dot and a digit) or an exponent
    (e or E, an optional sign, a digit) after the integer part makes the
    literal a float. *)
Definition float_tail (s : string) : bool :=
  match s with
  | String "." r => starts_with_digit r
  | String "e" r | String "E" r =>
      match r with
      | String "+" r' | String "-" r' => starts_with_digit r'
      | _ => starts_with_digit r
      end
  | _ => false
  end.

Definition hex_val (c : ascii) : option N :=
  let n := code c in
  if ((48 <=? n) && (n <=? 57))%N then Some (n - 48)%N
  else if ((97 <=? n) && (n <=? 102))%N then Some (n - 87)%N
  else if ((65 <=? n) && (n <=? 70))%N then Some (n - 55)%N
  else None.

Definition hex4 (a b c d : ascii) : option N :=
  match hex_val a, hex_val b, hex_val c, hex_val d with
  | Some x, Some y, Some z, Some w => Some (((x * 16 + y) * 16 + z) * 16 + w)%N
  | _, _, _, _ => None
  end.

(** [BACKSLASH]: the one-letter escapes. *)
Definition unescape (e : ascii) : option ascii :=
  if (e =? "034")%char then Some "034"%char
  else if (e =? "\")%char then Some "\"%char
  else if (e =? "/")%char then Some "/"%char
  else if (e =? "b")%char then Some "008"%char
  else if (e =? "f")%char then Some "012"%char
  else if (e =? "n")%char then Some "010"%char
  else if (e =? "r")%char then Some "013"%char
  else if (e =? "t")%char then Some "009"%char
  else None.

Definition cons_char (c : ascii) (r : option (string * string)) : option (string * string) :=
  match r with
  | Some (s, rest) => Some (String c s, rest)
  | None => None
  end.

(** [scanstring] with [strict=True], entered after the opening quote: the
    decoded text and what follows the closing quote.  An escape [\uXXXX]
    above 00ff names a character outside the alphabet of the model, and the
    scanner gives [None] for it. *)
Fixpoint scan_string (s : string) : option (string * string) :=
  match s with
  | "" => None
  | String c r =>
      if (c =? "034")%char then Some ("", r)
      else if (c =? "\")%char then
        match r with
        | "" => None
        | String e r' =>
            if (e =? "u")%char then
              match r' with
              | String h1 (String h2 (String h3 (String h4 r''))) =>
                  match hex4 h1 h2 h3 h4 with
                  | Some n =>
                      if (n <? 256)%N then cons_char (ascii_of_N n) (scan_string r'')
                      else None
                  | None => None
                  end
              | _ => None
              end
            else
              match unescape e with
              | Some ch => cons_char ch (scan_string r')
              | None => None
              end
        end
      else if (code c <? 32)%N then None
      else cons_char c (scan_string r)
  end.

(** [s[end:end + len(p)] == p]: what follows [p] when [s] begins with it. *)
Fixpoint strip_prefix (p s : string) : option string :=
  match p with
  | "" => Some s
  | String a p' =>
      match s with
      | String b s' => if (a =? b)%char then strip_prefix p' s' else None
      | "" => None
      end
  end.

(** [s[end:end + 1] == c] and [end + 1] *)
Definition nextchar_is (c : ascii) (s : string) : bool :=
  match s with
  | String c' _ => (c' =? c)%char
  | "" => false
  end.

Definition advance (s : string) : string :=
  match s with
  | String _ r => r
  | "" => ""
  end.

(** [scan_once], [JSONArray] and [JSONObject] of [json.decoder]/[json.scanner].
    [JSONArray_items] is entered at the first character of an element,
    [JSONObject_pairs] at the opening quote of a key.  [fuel] bounds the depth
    of the calls; [json_loads_fuel] below shows that the fuel [json_loads]
    gives is never short.  A number literal with a fraction or an exponent,
    and the constants NaN and Infinity, are Python floats: the scanner of the
    model has no value for them and gives [None], as it does for text that
    is not JSON.  The scanner has no bound on the digits of an integer or on
    the depth of nesting, where the interpreter has one. *)
Fixpoint scan_once (fuel : nat) (s : string) {struct fuel} : option (json * string) :=
  match fuel with
  | O => None
  | S fuel' =>
      match s with
      | "" => None
      | String c r =>
          if (c =? "034")%char then
            match scan_string r with
            | Some (str, r') => Some (JString str, r')
            | None => None
            end
          else if (c =? "{")%char then
            let r1 := skip_ws r in
            if nextchar_is "}" r1 then Some (JObject [], advance r1)
            else
              match JSONObject_pairs fuel' r1 with
              | Some (pairs, r') => Some (JObject (dict_of_pairs pairs), r')
              | None => None
              end
          else if (c =? "[")%char then
            let r1 := skip_ws r in
            if nextchar_is "]" r1 then Some (JArray [], advance r1)
            else
              match JSONArray_items fuel' r1 with
              | Some (values, r') => Some (JArray values, r')
              | None => None
              end
          else
            match strip_prefix "null" s with
            | Some r' => Some (JNull, r')
            | None =>
            match strip_prefix "true" s with
            | Some r' => Some (JBool true, r')
            | None =>
            match strip_prefix "false" s with
            | Some r' => Some (JBool false, r')
            | None =>
            match scan_int s with
            | Some (n, r') => if float_tail r' then None else Some (JInt n, r')
            | None => None
            end end end end
      end
  end
with JSONArray_items (fuel : nat) (s : string) {struct fuel}
  : option (list json * string) :=
  match fuel with
  | O => None
  | S fuel' =>
      match scan_once fuel' s with
      | Some (value, r) =>
          let r1 := skip_ws r in
          if nextchar_is "]" r1 then Some ([value], advance r1)
          else if nextchar_is "," r1 then
            match JSONArray_items fuel' (skip_ws (advance r1)) with
            | Some (values, r') => Some (value :: values, r')
            | None => None
            end
          else None
      | None => None
      end
  end
with JSONObject_pairs (fuel : nat) (s : string) {struct fuel}
  : option (list (string * json) * string) :=
  match fuel with
  | O => None
  | S fuel' =>
      if nextchar_is "034" s then
        match scan_string (advance s) with
        | Some (key, r1) =>
            let r2 := skip_ws r1 in
            if nextchar_is ":" r2 then
              match scan_once fuel' (skip_ws (advance r2)) with
              | Some (value, r3) =>
                  let r4 := skip_ws r3 in
                  if nextchar_is "}" r4 then Some ([(key, value)], advance r4)
                  else if nextchar_is "," r4 then
                    match JSONObject_pairs fuel' (skip_ws (advance r4)) with
                    | Some (pairs, r') => Some ((key, value) :: pairs, r')
                    | None => None
                    end
                  else None
              | None => None
              end
            else None
        | None => None
        end
      else None
  end.

(** [json.loads]: one value between optional whitespace, nothing after it. *)
Definition json_loads (s : string) : option json :=
  match scan_once (S (length s)) (skip_ws s) with
  | Some (v, r) => match skip_ws r with "" => Some v | _ => None end
  | None => None
  end.

(** ** [base64.b64encode] *)

Definition b64_char (n : N) : ascii :=
  if (n <? 26)%N then ascii_of_N (65 + n)
  else if (n <? 52)%N then ascii_of_N (71 + n)
  else if (n <? 62)%N then ascii_of_N (n - 4)
  else if (n =? 62)%N then "+"%char
  else "/"%char.

Fixpoint b64encode (s : string) : string :=
  match s with
  | "" => ""
  | String a "" =>
      let x := code a in
      String (b64_char (x / 4)) (String (b64_char (x mod 4 * 16)) "==")
  | String a (String b "") =>
      let x := code a in
      let y := code b in
      String (b64_char (x / 4))
        (String (b64_char (x mod 4 * 16 + y / 16))
           (String (b64_char (y mod 16 * 4)) "="))
  | String a (String b (String c r)) =>
      let x := code a in
      let y := code b in
      let z := code c in
      String (b64_char (x / 4))
        (String (b64_char (x mod 4 * 16 + y / 16))
           (String (b64_char (y mod 16 * 4 + z / 64))
              (String (b64_char (z mod 64)) (b64encode r))))
  end.

(** ** The HTTP client and the exceptions of the dispatcher *)

(** An [httpx.Response]: the status line and the body.  [text] and [content]
    are the same body, once as text and once as bytes; the model has one
    alphabet for both. *)
Record Response : Type := mkResponse {
  status_code : Z;
  content : string
}.

Definition text (r : Response) : string := content r.

(** What [client.get(url, params=params)] is called with.  A call without
    [params] has the empty mapping. *)
Record Request : Type := mkRequest {
  url : string;
  params : dict
}.

(** The subclasses of [Exception] the handlers of [call_tool] tell apart:
    [httpx.ConnectError], [httpx.HTTPStatusError] with its response, and
    every other one ([TypeError], [KeyError], [json.JSONDecodeError],
    [httpx.ReadTimeout], ...) with its class name and [str(e)]. *)
Inductive exn : Type :=
| ConnectError (msg : string)
| HTTPStatusError (response : Response)
| OtherException (cls : string) (msg : string).

(** What the network does with one request. *)
Inductive http_outcome : Type :=
| Responded (r : Response)
| Failed (e : exn).

Inductive result (A : Type) : Type :=
| Ok (a : A)
| Raise (e : exn).
Arguments Ok {A} a.
Arguments Raise {A} e.

(** Computations that may raise and that send requests: the state is the log
    of the requests sent so far, oldest first. *)
Definition M (A : Type) : Type := list Request -> result A * list Request.

Definition ret {A} (a : A) : M A := fun log => (Ok a, log).

Definition raise {A} (e : exn) : M A := fun log => (Raise e, log).

Definition bind {A B} (m : M A) (k : A -> M B) : M B :=
  fun log =>
    match m log with
    | (Ok a, log') => k a log'
    | (Raise e, log') => (Raise e, log')
    end.

Notation "x <- m ;; k" := (bind m (fun x => k))
  (at level 61, m at next level, right associativity).

(** [try: body except ...: handler] *)
Definition try_except {A} (body : M A) (handler : exn -> M A) : M A :=
  fun log =>
    match body log with
    | (Ok a, log') => (Ok a, log')
    | (Raise e, log') => handler e log'
    end.

Inductive ContentBlock : Type :=
| TextContent (text : string)
| ImageContent (data : string) (mimeType : string).

Record Tool : Type := mkTool {
  name : string;
  description : string;
  inputSchema : json
}.

Definition DEVTOOLS_BASE_URL : string := "http://127.0.0.1:18080".

(** [response.is_success] *)
Definition is_success (r : Response) : bool :=
  ((200 <=? status_code r) && (status_code r <=? 299))%Z.

(** [response.raise_for_status()] *)
Definition raise_for_status (r : Response) : M unit :=
  if is_success r then ret tt else raise (HTTPStatusError r).

(** [d[k]] *)
Definition dict_getitem (d : dict) (k : string) : M json :=
  match dict_get d k with
  | Some v => ret v
  | None => raise (OtherException "KeyError" ("'" ++ k ++ "'"))
  end.

(** [min(a, k)] for an [int] [k]: Python keeps [a] unless [k < a], and
    [k < a] is defined for an [int] or a [bool] [a] only. *)
Definition py_min_int (a : json) (k : Z) : M json :=
  match a with
  | JInt n => ret (if (k <? n)%Z then JInt k else JInt n)
  | JBool b => ret (if (k <? (if b then 1 else 0))%Z then JInt k else JBool b)
  | _ =>
      raise (OtherException "TypeError"
               ("'<' not supported between instances of 'int' and '"
                ++ type_name a ++ "'"))
  end.

(** ** [list_tools] *)

Definition no_arguments_schema : json :=
  JObject [("type", JString "object"); ("properties", JObject []); ("required", JArray [])].

Definition list_tools : list Tool :=
  [ mkTool "devdash_get_state"
      "Get current telemetry state from DevDash (RPM, speed, temperatures, etc.)"
      no_arguments_schema;
    mkTool "devdash_get_warnings"
      "Get active warnings and critical alerts from DevDash"
      no_arguments_schema;
    mkTool "devdash_screenshot"
      "Capture PNG screenshot of a DevDash window"
      (JObject
         [("type", JString "object");
          ("properties",
           JObject
             [("window",
               JObject
                 [("type", JString "string");
                  ("description",
                   JString "Window name to capture (e.g., 'cluster', 'headunit')")])]);
          ("required", JArray [JString "window"])]);
    mkTool "devdash_list_windows"
      "List available DevDash windows for screenshot capture"
      no_arguments_schema;
    mkTool "devdash_get_logs"
      "Retrieve recent application logs from DevDash with filtering by level and category"
      (JObject
         [("type", JString "object");
          ("properties",
           JObject
             [("count",
               JObject
                 [("type", JString "integer");
                  ("description",
                   JString "Number of log entries to retrieve (max 1000, default 100)");
                  ("default", JInt 100)]);
              ("level",
               JObject
                 [("type", JString "string");
                  ("description",
                   JString "Minimum log level to include (debug, info, warning, critical)");
                  ("enum",
                   JArray [JString "debug"; JString "info"; JString "warning";
                           JString "critical"]);
                  ("default", JString "info")]);
              ("category",
               JObject
                 [("type", JString "string");
                  ("description",
                   JString "Filter by category (e.g., 'devdash.broker', 'devdash.adapter')");
                  ("default", JString "")])]);
          ("required", JArray [])]) ].

(** ** [call_tool] *)

Section Dispatcher.

(** The DevTools service as the bridge sees it, and the text [str(e)] of
    the [JSONDecodeError] that [json.loads] raises on a body it rejects. *)
Variable backend : Request -> http_outcome.
Variable decode_error : string -> string.

(** [await client.get(url, params=params)] *)
Definition client_get (u : string) (p : dict) : M Response :=
  fun log =>
    let request := mkRequest u p in
    match backend request with
    | Responded r => (Ok r, (log ++ [request])%list)
    | Failed e => (Raise e, (log ++ [request])%list)
    end.

(** [response.json()] *)
Definition response_json (r : Response) : M json :=
  match json_loads (content r) with
  | Some data => ret data
  | None => raise (OtherException "JSONDecodeError" (decode_error (content r)))
  end.

(** The statements the four JSON branches share: the request, the status
    check, the decoding and the pretty-printed text. *)
Definition get_json (u : string) (p : dict) : M (list ContentBlock) :=
  response <- client_get u p ;;
  _ <- raise_for_status response ;;
  data <- response_json response ;;
  ret [TextContent (json_dumps_indent2 data)].

(** The query parameters of [devdash_get_logs]. *)
Definition get_logs_params (arguments : dict) : M dict :=
  let params := [] in
  params <- (if dict_contains arguments "count" then
               count <- dict_getitem arguments "count" ;;
               clamped <- py_min_int count 1000 ;;
               ret (dict_set params "count" clamped)
             else ret params) ;;
  params <- (if dict_contains arguments "level" then
               level <- dict_getitem arguments "level" ;;
               ret (dict_set params "level" level)
             else ret params) ;;
  if dict_contains arguments "category" then
    category <- dict_getitem arguments "category" ;;
    if truthy category then
      category <- dict_getitem arguments "category" ;;
      ret (dict_set params "category" category)
    else ret params
  else ret params.

(** The body of the [try] statement. *)
Definition call_tool_body (name : string) (arguments : dict) : M (list ContentBlock) :=
  if (name =? "devdash_get_state")%string then
    get_json (DEVTOOLS_BASE_URL ++ "/api/state") []
  else if (name =? "devdash_get_warnings")%string then
    get_json (DEVTOOLS_BASE_URL ++ "/api/warnings") []
  else if (name =? "devdash_list_windows")%string then
    get_json (DEVTOOLS_BASE_URL ++ "/api/windows") []
  else if (name =? "devdash_get_logs")%string then
    params <- get_logs_params arguments ;;
    get_json (DEVTOOLS_BASE_URL ++ "/api/logs") params
  else if (name =? "devdash_screenshot")%string then
    let window := match dict_get arguments "window" with
                  | Some w => w
                  | None => JNull
                  end in
    if negb (truthy window) then
      ret [TextContent "Error: 'window' parameter is required"]
    else
      response <- client_get (DEVTOOLS_BASE_URL ++ "/api/screenshot")
                    [("window", window)] ;;
      _ <- raise_for_status response ;;
      let image_data := content response in
      let image_b64 := b64encode image_data in
      ret [ImageContent image_b64 "image/png"]
  else
    ret [TextContent ("Unknown tool: " ++ name)].

(** The [except] clauses, in the order of the source. *)
Definition handlers (e : exn) : M (list ContentBlock) :=
  match e with
  | ConnectError _ =>
      ret [TextContent
             "Error: Cannot connect to DevDash. Make sure DevDash is running with DevTools server enabled."]
  | HTTPStatusError response =>
      ret [TextContent
             ("Error: HTTP " ++ str_int (status_code response) ++ " - " ++ text response)]
  | OtherException _ msg =>
      ret [TextContent ("Error: " ++ msg)]
  end.

(** [call_tool(name, arguments)], run from an empty log: what it hands to
    its caller, and the requests it sent. *)
Definition call_tool (name : string) (arguments : dict)
  : result (list ContentBlock) * list Request :=
  try_except (call_tool_body name arguments) handlers [].

End Dispatcher.

(** ** Notions used in the statements *)

(** [sub in s] *)
Definition is_substring (sub s : string) : Prop :=
  exists pre post, s = pre ++ sub ++ post.

(** [s] between double quotes, for writing JSON text. *)
Definition quoted (s : string) : string := String "034" (s ++ String "034" "").

(** Decoding of a successful response in the four JSON branches. *)
Definition decode_json_body (decode_error : string -> string) (r : Response)
  : result (list ContentBlock) :=
  match json_loads (content r) with
  | Some data => Ok [TextContent (json_dumps_indent2 data)]
  | None => Raise (OtherException "JSONDecodeError" (decode_error (content r)))
  end.

(** Decoding of a successful response in the screenshot branch. *)
Definition decode_image_body (r : Response) : result (list ContentBlock) :=
  Ok [ImageContent (b64encode (content r)) "image/png"].

Definition decoder_of (decode_error : string -> string) (name : string)
  : Response -> result (list ContentBlock) :=
  if (name =? "devdash_screenshot")%string then decode_image_body
  else decode_json_body decode_error.

(** The outcome of the [try] body once its request has met the network. *)
Definition answer_of (decode : Response -> result (list ContentBlock))
    (o : http_outcome) : result (list ContentBlock) :=
  match o with
  | Failed e => Raise e
  | Responded r => if is_success r then decode r else Raise (HTTPStatusError r)
  end.

(** The three ways the [try] body can go: it answers with one text block
    without touching the network, it stops on an exception before any
    request, or it sends exactly one request and the outcome is the
    network's answer, decoded. *)
Inductive body_shape (backend : Request -> http_outcome)
    (decode_error : string -> string) (name : string)
  : result (list ContentBlock) * list Request -> Prop :=
| shape_local (t : string) :
    body_shape backend decode_error name (Ok [TextContent t], [])
| shape_stopped (cls msg : string) :
    body_shape backend decode_error name (Raise (OtherException cls msg), [])
| shape_sent (u : string) (p : dict) :
    body_shape backend decode_error name
      (answer_of (decoder_of decode_error name) (backend (mkRequest u p)),
       [mkRequest u p]).

(** The tools whose answer is JSON text. *)
Definition json_tools : list string :=
  ["devdash_get_state"; "devdash_get_warnings"; "devdash_list_windows";
   "devdash_get_logs"].

(** Backends and a decoder message to run the dispatcher on. *)
Definition backend_answering (r : Response) : Request -> http_outcome :=
  fun _ => Responded r.

Definition backend_refusing : Request -> http_outcome :=
  fun _ => Failed (ConnectError "All connection attempts failed").

Definition expecting_value : string -> string :=
  fun _ => "Expecting value: line 1 column 1 (char 0)".

(** A bound on the depth of the scanner's calls on the text of [v]. *)
Fixpoint json_size (v : json) : nat :=
  match v with
  | JArray items => S (list_sum (map (fun x => S (json_size x)) items))
  | JObject members =>
      S (list_sum (map (fun kv => let '(_, x) := kv in S (json_size x)) members))
  | _ => 1
  end.

(** No object of [v] has a key twice: what a Python [dict] guarantees and an
    association list does not. *)
Fixpoint unique_keys (v : json) : Prop :=
  match v with
  | JArray items =>
      (fix all (l : list json) : Prop :=
         match l with
         | [] => True
         | x :: l' => unique_keys x /\ all l'
         end) items
  | JObject members =>
      NoDup (map fst members)
      /\ (fix all (l : list (string * json)) : Prop :=
            match l with
            | [] => True
            | (_, x) :: l' => unique_keys x /\ all l'
            end) members
  | _ => True
  end.

(** The first character of the text of a value. *)
Definition value_start (c : ascii) : bool :=
  is_digit c || (c =? "-")%char || (c =? "034")%char || (c =? "[")%char
  || (c =? "{")%char || (c =? "n")%char || (c =? "t")%char || (c =? "f")%char.

Definition number_start (c : ascii) : bool := is_digit c || (c =? "-")%char.

(** What [json.dumps] writes after a value: nothing, a comma or a newline. *)
Definition value_end (rest : string) : bool :=
  match rest with
  | "" => true
  | String c _ => (c =? ",")%char || (c =? "010")%char
  end.

(** The scanner reads [v] back from its text, whatever the nesting level the
    text was written at and whatever follows it. *)
Definition roundtrips (v : json) : Prop :=
  forall level fuel rest,
    json_size v <= fuel -> value_end rest = true ->
    scan_once fuel (iterencode v level ++ rest) = Some (v, rest).

Definition item_separator (level : nat) : string := "," ++ newline_indent level.

Definition encode_member (level : nat) (kv : string * json) : string :=
  let '(k, x) := kv in encode_string k ++ ": " ++ iterencode x level.

(** Induction on [json] that reaches the values inside arrays and objects. *)
Section json_induction.

Variable P : json -> Prop.
Hypothesis Hnull : P JNull.
Hypothesis Hbool : forall b, P (JBool b).
Hypothesis Hint : forall n, P (JInt n).
Hypothesis Hstring : forall s, P (JString s).
Hypothesis Harray : forall items, Forall P items -> P (JArray items).
Hypothesis Hobject :
  forall members, Forall (fun kv => P (snd kv)) members -> P (JObject members).

Fixpoint json_nested_ind (v : json) : P v :=
  match v with
  | JNull => Hnull
  | JBool b => Hbool b
  | JInt n => Hint n
  | JString s => Hstring s
  | JArray items =>
      Harray items
        ((fix go (l : list json) : Forall P l :=
            match l with
            | [] => Forall_nil P
            | x :: l' => Forall_cons x (json_nested_ind x) (go l')
            end) items)
  | JObject members =>
      Hobject members
        ((fix go (l : list (string * json)) : Forall (fun kv => P (snd kv)) l :=
            match l with
            | [] => Forall_nil _
            | kv :: l' =>
                Forall_cons (P := fun kv => P (snd kv)) kv
                  (json_nested_ind (snd kv)) (go l')
            end) members)
  end.

End json_induction.

(** ** Notions used in the further properties *)

(** The names a tool's input schema lists under [required]. *)
Definition schema_required (schema : json) : list string :=
  match schema with
  | JObject members =>
      match dict_get members "required" with
      | Some (JArray items) =>
          flat_map (fun x => match x with JString s => [s] | _ => [] end) items
      | _ => []
      end
  | _ => []
  end.

(** A backend whose answers never arrive in time: the [httpx.ReadTimeout]
    that ends the wait has an empty description. *)
Definition backend_timing_out : Request -> http_outcome :=
  fun _ => Failed (OtherException "ReadTimeout" "").

(** [f] holds of every character of [s]. *)
Fixpoint string_forallb (f : ascii -> bool) (s : string) : bool :=
  match s with
  | "" => true
  | String c r => f c && string_forallb f r
  end.

(** The alphabet of base64 with its padding sign. *)
Definition is_b64_char (c : ascii) : bool :=
  let n := code c in
  ((65 <=? n) && (n <=? 90) || (97 <=? n) && (n <=? 122) || (48 <=? n) && (n <=? 57)
   || (n =? 43) || (n =? 47) || (n =? 61))%N.

(** The value of a character of the base64 alphabet. *)
Definition b64_val (c : ascii) : option N :=
  let n := code c in
  if ((65 <=? n) && (n <=? 90))%N then Some (n - 65)%N
  else if ((97 <=? n) && (n <=? 122))%N then Some (n - 71)%N
  else if ((48 <=? n) && (n <=? 57))%N then Some (n + 4)%N
  else if (n =? 43)%N then Some 62%N
  else if (n =? 47)%N then Some 63%N
  else None.

(** A decoder for the text of [b64encode]: four characters at a time, the
    padding only in the last group. *)
Fixpoint b64decode (s : string) : option string :=
  match s with
  | "" => Some ""
  | String a (String b (String c (String d r))) =>
      match b64_val a, b64_val b with
      | Some x, Some y =>
          let b0 := ascii_of_N (x * 4 + y / 16) in
          if (c =? "=")%char then
            if (d =? "=")%char then
              match r with "" => Some (String b0 "") | _ => None end
            else None
          else
            match b64_val c with
            | Some z =>
                let b1 := ascii_of_N (y mod 16 * 16 + z / 4) in
                if (d =? "=")%char then
                  match r with "" => Some (String b0 (String b1 "")) | _ => None end
                else
                  match b64_val d, b64decode r with
                  | Some w, Some rest =>
                      Some (String b0 (String b1
                              (String (ascii_of_N (z mod 4 * 64 + w)) rest)))
                  | _, _ => None
                  end
            | None => None
            end
      | _, _ => None
      end
  | _ => None
  end.


(** * Properties *)

(** ** Strings *)

Lemma append_assoc (a b c : string) : (a ++ b) ++ c = a ++ (b ++ c).
Proof. induction a as [|x a IH]; simpl; [reflexivity | now rewrite IH]. Qed.

Lemma append_nil_r (a : string) : a ++ "" = a.
Proof. induction a as [|x a IH]; simpl; [reflexivity | now rewrite IH]. Qed.

Lemma length_append (a b : string) : length (a ++ b) = length a + length b.
Proof. induction a as [|x a IH]; simpl; [reflexivity | now rewrite IH]. Qed.

Lemma is_substring_here (pre sub post : string) : is_substring sub (pre ++ sub ++ post).
Proof. now exists pre, post. Qed.

Lemma is_substring_end (pre sub : string) : is_substring sub (pre ++ sub).
Proof. exists pre, "". now rewrite append_nil_r. Qed.


(** ** Decimal numerals *)

Ltac all_chars c := destruct c as [[] [] [] [] [] [] [] []].

Lemma digit_char_val (d : Z) :
  (0 <= d <= 9)%Z ->
  is_digit (digit_char d) = true /\ digit_val (digit_char d) = d
  /\ (digit_char d =? "0")%char = (d =? 0)%Z.
Proof.
  intro H.
  assert (d = 0 \/ d = 1 \/ d = 2 \/ d = 3 \/ d = 4 \/ d = 5 \/ d = 6 \/ d = 7
          \/ d = 8 \/ d = 9)%Z as Hd by lia.
  repeat (destruct Hd as [Hd|Hd]; [subst d; repeat split|]).
  subst d; repeat split.
Qed.

Lemma digits_upto_append (fuel : nat) : forall n acc rest,
  digits_upto fuel n acc ++ rest = digits_upto fuel n (acc ++ rest).
Proof.
  induction fuel as [|fuel IH]; intros n acc rest; simpl; [reflexivity|].
  destruct (n / 10 =? 0)%Z; [reflexivity|]. now rewrite IH.
Qed.

Lemma scan_digits_digit (c : ascii) (r : string) (a : Z) :
  is_digit c = true -> scan_digits (String c r) a = scan_digits r (10 * a + digit_val c)%Z.
Proof. intro H. cbn [scan_digits]. now rewrite H. Qed.

Lemma scan_nat_digits_upto (fuel : nat) : forall n acc,
  (0 < n < 10 ^ Z.of_nat fuel)%Z ->
  scan_nat (digits_upto fuel n acc) = Some (scan_digits acc n).
Proof.
  induction fuel as [|fuel IH]; intros n acc Hn.
  - simpl in Hn. lia.
  - simpl digits_upto.
    assert (0 <= n mod 10 <= 9)%Z as Hd by (pose proof (Z.mod_pos_bound n 10); lia).
    destruct (digit_char_val _ Hd) as (Hdig & Hval & Hzero).
    pose proof (Z.div_mod n 10 ltac:(lia)) as Hdm.
    destruct (n / 10 =? 0)%Z eqn:Hq.
    + apply Z.eqb_eq in Hq.
      unfold scan_nat. rewrite Hzero, Hdig, Hval.
      assert ((n mod 10 =? 0)%Z = false) as -> by (apply Z.eqb_neq; lia).
      do 2 f_equal. lia.
    + apply Z.eqb_neq in Hq.
      rewrite IH.
      * rewrite scan_digits_digit, Hval by assumption. do 2 f_equal. lia.
      * assert (0 <= n / 10)%Z by (apply Z.div_pos; lia).
        split; [lia|].
        apply Z.div_lt_upper_bound; [lia|].
        rewrite Nat2Z.inj_succ, Z.pow_succ_r in Hn by lia. lia.
Qed.

Lemma str_nat_bound (n : Z) : (0 < n)%Z -> (n < 10 ^ Z.of_nat (S (Z.to_nat (Z.log2 n))))%Z.
Proof.
  intro Hn.
  pose proof (Z.log2_nonneg n) as Hl.
  rewrite Nat2Z.inj_succ, Z2Nat.id by lia.
  destruct (Z.log2_spec n Hn) as [_ Hlt].
  eapply Z.lt_le_trans; [exact Hlt|].
  apply Z.pow_le_mono_l. lia.
Qed.

Lemma scan_nat_str_nat (n : Z) (rest : string) :
  (0 <= n)%Z ->
  scan_nat (str_nat n ++ rest) = Some (if (n =? 0)%Z then (0%Z, rest) else scan_digits rest n).
Proof.
  intro Hn. unfold str_nat.
  destruct (n =? 0)%Z eqn:Hz.
  - apply Z.eqb_eq in Hz. subst n. reflexivity.
  - apply Z.eqb_neq in Hz.
    rewrite digits_upto_append, scan_nat_digits_upto.
    + reflexivity.
    + split; [lia|]. apply str_nat_bound. lia.
Qed.

Lemma scan_digits_stop (rest : string) (n : Z) :
  starts_with_digit rest = false -> scan_digits rest n = (n, rest).
Proof. destruct rest as [|c r]; simpl; [reflexivity|]. now intros ->. Qed.

Lemma str_nat_starts_with_digit (n : Z) :
  (0 <= n)%Z -> exists c r, str_nat n = String c r /\ is_digit c = true.
Proof.
  intro Hn. pose proof (scan_nat_str_nat n "" Hn) as H.
  rewrite append_nil_r in H.
  destruct (str_nat n) as [|c r]; [discriminate|].
  exists c, r. split; [reflexivity|].
  unfold scan_nat in H.
  destruct (c =? "0")%char eqn:E.
  - apply Ascii.eqb_eq in E. now subst c.
  - destruct (is_digit c); [reflexivity | discriminate].
Qed.

Lemma scan_int_digit (c : ascii) (r : string) :
  is_digit c = true -> scan_int (String c r) = scan_nat (String c r).
Proof. all_chars c; try discriminate; reflexivity. Qed.

Lemma scan_int_str_int (n : Z) (rest : string) :
  starts_with_digit rest = false ->
  scan_int (str_int n ++ rest) = Some (n, rest).
Proof.
  intro Hrest. unfold str_int.
  destruct (n <? 0)%Z eqn:Hneg.
  - apply Z.ltb_lt in Hneg.
    change (String "-" (str_nat (- n)) ++ rest) with (String "-" (str_nat (- n) ++ rest)).
    unfold scan_int. rewrite scan_nat_str_nat by lia.
    assert ((- n =? 0)%Z = false) as -> by (apply Z.eqb_neq; lia).
    rewrite scan_digits_stop by assumption. do 2 f_equal. lia.
  - apply Z.ltb_ge in Hneg.
    destruct (str_nat_starts_with_digit n Hneg) as (c & r & Hs & Hc).
    pose proof (scan_nat_str_nat n rest Hneg) as H.
    rewrite Hs in *. change (String c r ++ rest) with (String c (r ++ rest)) in *.
    rewrite scan_int_digit, H by assumption.
    destruct (n =? 0)%Z eqn:Hz.
    + apply Z.eqb_eq in Hz. now subst n.
    + now rewrite scan_digits_stop.
Qed.

(** ** String literals and whitespace *)

Lemma scan_string_escape_char (c : ascii) (r : string) :
  scan_string (escape_char c ++ r) = cons_char c (scan_string r).
Proof. all_chars c; reflexivity. Qed.

Lemma scan_string_escape_chars (s rest : string) :
  scan_string (escape_chars s ++ String "034" rest) = Some (s, rest).
Proof.
  induction s as [|c s IH]; [reflexivity|].
  cbn [escape_chars]. rewrite append_assoc, scan_string_escape_char, IH.
  reflexivity.
Qed.

Lemma skip_ws_spaces (n : nat) (s : string) : skip_ws (spaces n ++ s) = skip_ws s.
Proof. induction n as [|n IH]; [reflexivity|]. cbn. exact IH. Qed.

Lemma skip_ws_newline_indent (level : nat) (s : string) :
  skip_ws (newline_indent level ++ s) = skip_ws s.
Proof. unfold newline_indent. cbn. apply skip_ws_spaces. Qed.

Lemma skip_ws_stay (c : ascii) (r : string) :
  is_ws c = false -> skip_ws (String c r) = String c r.
Proof. intro H. cbn. now rewrite H. Qed.

(** ** Values, one at a time *)

Lemma unique_keys_array (items : list json) :
  unique_keys (JArray items) <-> Forall unique_keys items.
Proof.
  simpl. induction items as [|x l IH]; [now split|].
  split.
  - intros [Hx Hl]. constructor; [exact Hx | now apply IH].
  - intro H. inversion_clear H. split; [assumption | now apply IH].
Qed.

Lemma unique_keys_object (members : list (string * json)) :
  unique_keys (JObject members)
  <-> NoDup (map fst members) /\ Forall (fun kv => unique_keys (snd kv)) members.
Proof.
  simpl.
  assert ((fix all (l : list (string * json)) : Prop :=
             match l with
             | [] => True
             | (_, x) :: l' => unique_keys x /\ all l'
             end) members
          <-> Forall (fun kv => unique_keys (snd kv)) members) as H.
  { induction members as [|[k x] l IH]; [now split|].
    split.
    - intros [Hx Hl]. constructor; [exact Hx | now apply IH].
    - intro H. inversion_clear H. split; [assumption | now apply IH]. }
  now rewrite H.
Qed.

Lemma str_int_first (n : Z) :
  exists c r, str_int n = String c r /\ number_start c = true.
Proof.
  unfold str_int. destruct (n <? 0)%Z eqn:Hneg.
  - now exists "-"%char, (str_nat (- n)).
  - apply Z.ltb_ge in Hneg.
    destruct (str_nat_starts_with_digit n Hneg) as (c & r & Hs & Hc).
    exists c, r. split; [assumption|]. unfold number_start. now rewrite Hc.
Qed.

Lemma number_start_value_start (c : ascii) : number_start c = true -> value_start c = true.
Proof. all_chars c; try discriminate; reflexivity. Qed.

Lemma iterencode_first (v : json) (level : nat) :
  exists c r, iterencode v level = String c r /\ value_start c = true.
Proof.
  destruct v as [|[]|n|s|[|x l]|[|kv l]];
    try (cbn; unfold encode_string; eauto; fail).
  cbn [iterencode].
  destruct (str_int_first n) as (c & r & Hs & Hc).
  exists c, r. split; [assumption | now apply number_start_value_start].
Qed.

Lemma value_start_facts (c : ascii) (r : string) :
  value_start c = true ->
  skip_ws (String c r) = String c r
  /\ nextchar_is "]" (String c r) = false.
Proof. all_chars c; try discriminate; split; reflexivity. Qed.

Lemma value_end_facts (rest : string) :
  value_end rest = true -> starts_with_digit rest = false /\ float_tail rest = false.
Proof.
  destruct rest as [|c r]; [now split|].
  cbn [value_end]. all_chars c; try discriminate; split; reflexivity.
Qed.

Lemma scan_once_number (fuel : nat) (c : ascii) (r : string) :
  number_start c = true ->
  scan_once (S fuel) (String c r)
  = match scan_int (String c r) with
    | Some (n, r') => if float_tail r' then None else Some (JInt n, r')
    | None => None
    end.
Proof. all_chars c; try discriminate; reflexivity. Qed.

Lemma scan_once_int (fuel : nat) (n : Z) (rest : string) :
  value_end rest = true ->
  scan_once (S fuel) (str_int n ++ rest) = Some (JInt n, rest).
Proof.
  intro Hend. destruct (value_end_facts rest Hend) as [Hd Hf].
  destruct (str_int_first n) as (c & r & Hs & Hc).
  pose proof (scan_int_str_int n rest Hd) as H.
  rewrite Hs in *. change (String c r ++ rest) with (String c (r ++ rest)) in *.
  rewrite scan_once_number, H, Hf by assumption. reflexivity.
Qed.

Lemma scan_once_string (fuel : nat) (s rest : string) :
  scan_once (S fuel) (encode_string s ++ rest) = Some (JString s, rest).
Proof.
  unfold encode_string.
  change (scan_once (S fuel) (String "034" (escape_chars s ++ String "034" "") ++ rest))
    with (match scan_string ((escape_chars s ++ String "034" "") ++ rest) with
          | Some (str, r') => Some (JString str, r')
          | None => None
          end).
  rewrite append_assoc.
  change (String "034" "" ++ rest) with (String "034" rest).
  now rewrite scan_string_escape_chars.
Qed.

(** ** Arrays *)

Lemma concat_one (sep a : string) : concat sep [a] = a.
Proof. reflexivity. Qed.

Lemma concat_more (sep a b : string) (l : list string) :
  concat sep (a :: b :: l) = a ++ sep ++ concat sep (b :: l).
Proof. reflexivity. Qed.

Lemma value_then (v : json) (level : nat) (s : string) :
  skip_ws (iterencode v level ++ s) = iterencode v level ++ s
  /\ nextchar_is "]" (iterencode v level ++ s) = false.
Proof.
  destruct (iterencode_first v level) as (c & r & Hs & Hc). rewrite Hs.
  change (String c r ++ s) with (String c (r ++ s)).
  now apply value_start_facts.
Qed.

Lemma concat_values_then (sep : string) (level : nat) (x : json) (l : list json) (s : string) :
  exists t, concat sep (map (fun x => iterencode x level) (x :: l)) ++ s
            = iterencode x level ++ t.
Proof.
  destruct l as [|y l].
  - now exists s.
  - cbn [map]. rewrite concat_more, !append_assoc. eauto.
Qed.

Lemma JSONArray_items_step (fuel : nat) (s : string) :
  JSONArray_items (S fuel) s
  = match scan_once fuel s with
    | Some (value, r) =>
        let r1 := skip_ws r in
        if nextchar_is "]" r1 then Some ([value], advance r1)
        else if nextchar_is "," r1 then
          match JSONArray_items fuel (skip_ws (advance r1)) with
          | Some (values, r') => Some (value :: values, r')
          | None => None
          end
        else None
    | None => None
    end.
Proof. reflexivity. Qed.

Lemma array_items_roundtrip (level : nat) (rest : string) (items : list json) :
  Forall roundtrips items -> items <> [] ->
  forall fuel,
    list_sum (map (fun x => S (json_size x)) items) <= fuel ->
    JSONArray_items fuel
      (concat (item_separator (S level)) (map (fun x => iterencode x (S level)) items)
       ++ newline_indent level ++ "]" ++ rest)
    = Some (items, rest).
Proof.
  induction 1 as [|x l Hx Hl IH]; [congruence|]. intros _ fuel Hfuel.
  cbn [map list_sum fold_right] in Hfuel.
  destruct fuel as [|fuel]; [lia|].
  rewrite JSONArray_items_step.
  destruct l as [|y l].
  - cbn [map]. rewrite concat_one, Hx; [|lia|reflexivity].
    cbv zeta. rewrite skip_ws_newline_indent. reflexivity.
  - cbn [map]. rewrite concat_more, !append_assoc.
    unfold item_separator at 1.
    change (("," ++ newline_indent (S level)) ++ ?t)
      with (String "," (newline_indent (S level) ++ t)).
    rewrite Hx; [|lia|reflexivity].
    cbv zeta.
    change (skip_ws (String "," ?t)) with (String "," t).
    cbn [nextchar_is advance Ascii.eqb Bool.eqb].
    rewrite skip_ws_newline_indent.
    destruct (concat_values_then (item_separator (S level)) (S level) y l
                (newline_indent level ++ "]" ++ rest)) as [t Ht].
    cbn [map] in Ht.
    pose proof (value_then y (S level) t) as [Hskip _].
    rewrite <- Ht in Hskip. rewrite Hskip.
    cbn [map] in IH. rewrite IH; [reflexivity|congruence|].
    cbn [map list_sum fold_right] in Hfuel |- *. lia.
Qed.

(** ** Objects, and every value *)

Lemma JSONObject_pairs_step (fuel : nat) (s : string) :
  JSONObject_pairs (S fuel) s
  = if nextchar_is "034" s then
      match scan_string (advance s) with
      | Some (key, r1) =>
          let r2 := skip_ws r1 in
          if nextchar_is ":" r2 then
            match scan_once fuel (skip_ws (advance r2)) with
            | Some (value, r3) =>
                let r4 := skip_ws r3 in
                if nextchar_is "}" r4 then Some ([(key, value)], advance r4)
                else if nextchar_is "," r4 then
                  match JSONObject_pairs fuel (skip_ws (advance r4)) with
                  | Some (pairs, r') => Some ((key, value) :: pairs, r')
                  | None => None
                  end
                else None
            | None => None
            end
          else None
      | None => None
      end
    else None.
Proof. reflexivity. Qed.

(** The text of one member in front of [more], as the scanner meets it. *)
Lemma member_then (level : nat) (k : string) (x : json) (more : string) :
  encode_member level (k, x) ++ more
  = String "034" (escape_chars k ++ String "034" (String ":" (String " " (iterencode x level ++ more)))).
Proof.
  unfold encode_member, encode_string. rewrite !append_assoc.
  cbn [append]. rewrite ?append_assoc. reflexivity.
Qed.

Lemma concat_members_then (sep : string) (level : nat) (kv : string * json)
    (l : list (string * json)) (s : string) :
  exists t, concat sep (map (encode_member level) (kv :: l)) ++ s
            = String "034" t.
Proof.
  destruct kv as [k x]. destruct l as [|kv' l].
  - cbn [map]. rewrite concat_one, member_then. eauto.
  - cbn [map]. rewrite concat_more, append_assoc, member_then. eauto.
Qed.

Lemma object_pairs_roundtrip (level : nat) (rest : string) (members : list (string * json)) :
  Forall (fun kv => roundtrips (snd kv)) members -> members <> [] ->
  forall fuel,
    list_sum (map (fun kv => let '(_, x) := kv in S (json_size x)) members) <= fuel ->
    JSONObject_pairs fuel
      (concat (item_separator (S level)) (map (encode_member (S level)) members)
       ++ newline_indent level ++ "}" ++ rest)
    = Some (members, rest).
Proof.
  induction 1 as [|[k x] l Hx Hl IH]; [congruence|]. intros _ fuel Hfuel.
  cbn [snd] in Hx.
  destruct fuel as [|fuel]; [cbn [map list_sum fold_right] in Hfuel; lia|].
  rewrite JSONObject_pairs_step.
  destruct l as [|kv l].
  - cbn [map list_sum fold_right] in Hfuel.
    cbn [map]. rewrite concat_one, member_then.
    cbn [nextchar_is advance Ascii.eqb Bool.eqb].
    rewrite scan_string_escape_chars. cbv zeta.
    change (skip_ws (String ":" ?t)) with (String ":" t).
    cbn [nextchar_is advance Ascii.eqb Bool.eqb].
    change (skip_ws (String " " ?t)) with (skip_ws t).
    rewrite (proj1 (value_then x (S level) _)).
    rewrite Hx; [|lia|reflexivity].
    rewrite skip_ws_newline_indent. reflexivity.
  - cbn [map list_sum fold_right] in Hfuel.
    cbn [map]. rewrite concat_more, append_assoc, member_then.
    cbn [nextchar_is advance Ascii.eqb Bool.eqb].
    rewrite scan_string_escape_chars. cbv zeta.
    change (skip_ws (String ":" ?t)) with (String ":" t).
    cbn [nextchar_is advance Ascii.eqb Bool.eqb].
    change (skip_ws (String " " ?t)) with (skip_ws t).
    rewrite (proj1 (value_then x (S level) _)).
    rewrite append_assoc.
    unfold item_separator at 1.
    change (("," ++ newline_indent (S level)) ++ ?t)
      with (String "," (newline_indent (S level) ++ t)).
    rewrite Hx; [|lia|reflexivity].
    change (skip_ws (String "," ?t)) with (String "," t).
    cbn [nextchar_is advance Ascii.eqb Bool.eqb].
    rewrite skip_ws_newline_indent.
    destruct (concat_members_then (item_separator (S level)) (S level) kv l
                (newline_indent level ++ "}" ++ rest)) as [t Ht].
    cbn [map] in Ht, IH |- *. rewrite Ht.
    change (skip_ws (String "034" t)) with (String "034" t).
    rewrite <- Ht, IH; [reflexivity|congruence|].
    cbn [map list_sum fold_right]. lia.
Qed.

Lemma dict_set_fresh (d : dict) (k : string) (v : json) :
  ~ In k (map fst d) -> dict_set d k v = (d ++ [(k, v)])%list.
Proof.
  induction d as [|[k' v'] d IH]; intro Hk; [reflexivity|].
  cbn [dict_set]. cbn [map fst In] in Hk.
  destruct (String.eqb_spec k' k) as [->|Hne]; [tauto|].
  cbn [app]. f_equal. apply IH. tauto.
Qed.

Lemma dict_of_pairs_from (pairs : list (string * json)) : forall d,
  NoDup (map fst (d ++ pairs)%list) ->
  fold_left (fun d kv => dict_set d (fst kv) (snd kv)) pairs d = (d ++ pairs)%list.
Proof.
  induction pairs as [|[k v] pairs IH]; intros d Hnd.
  - now rewrite app_nil_r.
  - cbn [fold_left fst snd].
    assert (~ In k (map fst d)) as Hk.
    { rewrite map_app in Hnd. cbn [map fst] in Hnd.
      apply NoDup_remove_2 in Hnd. intro Hin. apply Hnd, in_or_app. now left. }
    rewrite dict_set_fresh by assumption.
    rewrite IH; rewrite <- app_assoc; [reflexivity | exact Hnd].
Qed.

Lemma dict_of_pairs_unique (pairs : list (string * json)) :
  NoDup (map fst pairs) -> dict_of_pairs pairs = pairs.
Proof. intro H. unfold dict_of_pairs. now rewrite dict_of_pairs_from. Qed.

Lemma forall_roundtrips {A} (f : A -> json) (l : list A) :
  Forall (fun a => unique_keys (f a) -> roundtrips (f a)) l ->
  Forall (fun a => unique_keys (f a)) l ->
  Forall (fun a => roundtrips (f a)) l.
Proof.
  induction 1 as [|a l Ha Hl IH]; intro H; constructor; inversion_clear H; auto.
Qed.

Theorem scan_once_iterencode (v : json) : unique_keys v -> roundtrips v.
Proof.
  induction v as [|b|n|s|items IH|members IH] using json_nested_ind;
    intros Hu level fuel rest Hfuel Hend;
    (destruct fuel as [|fuel]; [cbn in Hfuel; lia|]).
  - reflexivity.
  - destruct b; reflexivity.
  - now apply scan_once_int.
  - apply scan_once_string.
  - destruct items as [|x l]; [reflexivity|].
    apply unique_keys_array in Hu.
    pose proof (forall_roundtrips (fun x => x) _ IH Hu) as Hall.
    cbn [iterencode].
    rewrite !append_assoc.
    change ("[" ++ ?a) with (String "[" a).
    change (scan_once (S fuel) (String "[" ?r))
      with (let r1 := skip_ws r in
            if nextchar_is "]" r1 then Some (JArray [], advance r1)
            else match JSONArray_items fuel r1 with
                 | Some (values, r') => Some (JArray values, r')
                 | None => None
                 end).
    cbv zeta. rewrite skip_ws_newline_indent.
    destruct (concat_values_then ("," ++ newline_indent (S level)) (S level) x l
                (newline_indent level ++ "]" ++ rest)) as [t Ht].
    destruct (value_then x (S level) t) as [Hskip Hclose].
    rewrite <- Ht in Hskip, Hclose. rewrite Hskip, Hclose.
    pose proof (array_items_roundtrip level rest (x :: l) Hall ltac:(congruence) fuel) as H.
    unfold item_separator in H. rewrite H; [reflexivity|].
    cbn [json_size] in Hfuel. lia.
  - destruct members as [|kv l]; [reflexivity|].
    apply unique_keys_object in Hu. destruct Hu as [Hnd Hu].
    pose proof (forall_roundtrips snd _ IH Hu) as Hall.
    cbn [iterencode].
    rewrite !append_assoc.
    change ("{" ++ ?a) with (String "{" a).
    change (scan_once (S fuel) (String "{" ?r))
      with (let r1 := skip_ws r in
            if nextchar_is "}" r1 then Some (JObject [], advance r1)
            else match JSONObject_pairs fuel r1 with
                 | Some (pairs, r') => Some (JObject (dict_of_pairs pairs), r')
                 | None => None
                 end).
    cbv zeta. rewrite skip_ws_newline_indent.
    change (fun kv0 : string * json => let '(k, x) := kv0 in
              encode_string k ++ ": " ++ iterencode x (S level))
      with (encode_member (S level)).
    destruct (concat_members_then ("," ++ newline_indent (S level)) (S level) kv l
                (newline_indent level ++ "}" ++ rest)) as [t Ht].
    rewrite Ht.
    change (skip_ws (String "034" t)) with (String "034" t).
    change (nextchar_is "}" (String "034" t)) with false.
    cbv iota. rewrite <- Ht.
    pose proof (object_pairs_roundtrip level rest (kv :: l) Hall ltac:(congruence) fuel) as H.
    unfold item_separator in H. rewrite H.
    + now rewrite dict_of_pairs_unique.
    + cbn [json_size] in Hfuel. lia.
Qed.

(** ** What the scanner returns, and [json.loads] after [json.dumps] *)

(** Keys after [dict_set]. *)
Lemma dict_set_keys (d : dict) (k : string) (v : json) :
  map fst (dict_set d k v)
  = if existsb (String.eqb k) (map fst d) then map fst d else (map fst d ++ [k])%list.
Proof.
  induction d as [|[k' v'] d IH]; [reflexivity|].
  cbn [dict_set map fst existsb].
  rewrite (String.eqb_sym k k').
  destruct (k' =? k)%string eqn:E; cbn [orb map fst]; [reflexivity|].
  rewrite IH. now destruct (existsb _ _).
Qed.

Lemma dict_set_NoDup (d : dict) (k : string) (v : json) :
  NoDup (map fst d) -> NoDup (map fst (dict_set d k v)).
Proof.
  intro H. rewrite dict_set_keys.
  destruct (existsb (String.eqb k) (map fst d)) eqn:E; [assumption|].
  apply NoDup_app; [assumption | repeat constructor; intros [] |].
  intros x Hx [<-|[]].
  assert (existsb (String.eqb k) (map fst d) = true) as Hex
    by (apply existsb_exists; exists k; split; [assumption | apply String.eqb_refl]).
  congruence.
Qed.

Lemma dict_set_Forall (P : json -> Prop) (d : dict) (k : string) (v : json) :
  Forall (fun kv => P (snd kv)) d -> P v ->
  Forall (fun kv => P (snd kv)) (dict_set d k v).
Proof.
  induction 1 as [|[k' v'] d Hkv Hd IH]; intro Hv; cbn [dict_set].
  - now repeat constructor.
  - destruct (k' =? k)%string; constructor; auto.
Qed.

Lemma dict_of_pairs_invariant (P : json -> Prop) (pairs : list (string * json)) :
  Forall (fun kv => P (snd kv)) pairs ->
  NoDup (map fst (dict_of_pairs pairs))
  /\ Forall (fun kv => P (snd kv)) (dict_of_pairs pairs).
Proof.
  unfold dict_of_pairs.
  assert (forall d,
            NoDup (map fst d) -> Forall (fun kv => P (snd kv)) d ->
            Forall (fun kv => P (snd kv)) pairs ->
            NoDup (map fst (fold_left (fun d kv => dict_set d (fst kv) (snd kv)) pairs d))
            /\ Forall (fun kv => P (snd kv))
                 (fold_left (fun d kv => dict_set d (fst kv) (snd kv)) pairs d)) as H.
  { induction pairs as [|kv pairs IH]; intros d Hnd Hd Hp; [now split|].
    inversion_clear Hp. cbn [fold_left].
    apply IH; [now apply dict_set_NoDup | now apply dict_set_Forall | assumption]. }
  intro Hp. apply H; [constructor | constructor | assumption].
Qed.

Ltac invert_some :=
  match goal with
  | H : Some _ = Some _ |- _ => inversion H; subst; clear H
  | H : None = Some _ |- _ => discriminate H
  | H : (if ?b then _ else _) = Some _ |- _ => destruct b eqn:?
  | H : match ?x with Some _ => _ | None => _ end = Some _ |- _ => destruct x as [[? ?]|] eqn:?
  end.

Lemma scanned_unique_keys (fuel : nat) :
  (forall s v r, scan_once fuel s = Some (v, r) -> unique_keys v)
  /\ (forall s vs r, JSONArray_items fuel s = Some (vs, r) -> Forall unique_keys vs)
  /\ (forall s ps r, JSONObject_pairs fuel s = Some (ps, r) ->
        Forall (fun kv => unique_keys (snd kv)) ps).
Proof.
  induction fuel as [|fuel (IHv & IHa & IHo)]; [repeat split; discriminate|].
  repeat split.
  - intros s v r H. cbn [scan_once] in H. cbv zeta in H.
    destruct s as [|c s]; [discriminate|].
    destruct (c =? "034")%char.
    { repeat invert_some. exact I. }
    destruct (c =? "{")%char.
    { repeat invert_some; [cbn; repeat constructor|].
      apply unique_keys_object. eapply dict_of_pairs_invariant, IHo; eassumption. }
    destruct (c =? "[")%char.
    { repeat invert_some; [exact I|].
      apply unique_keys_array. eapply IHa; eassumption. }
    destruct (strip_prefix "null" _); [inversion H; exact I|].
    destruct (strip_prefix "true" _); [inversion H; exact I|].
    destruct (strip_prefix "false" _); [inversion H; exact I|].
    repeat invert_some. exact I.
  - intros s vs r H. rewrite JSONArray_items_step in H. cbv zeta in H.
    repeat invert_some; repeat constructor; eauto.
  - intros s ps r H. rewrite JSONObject_pairs_step in H. cbv zeta in H.
    repeat invert_some; repeat constructor; cbn [snd]; eauto.
Qed.

Lemma json_loads_unique_keys (s : string) (v : json) :
  json_loads s = Some v -> unique_keys v.
Proof.
  unfold json_loads. intro H.
  destruct (scan_once _ _) as [[v' r]|] eqn:E; [|discriminate].
  destruct (skip_ws r); [|discriminate]. inversion H; subst.
  eapply (proj1 (scanned_unique_keys _)); eassumption.
Qed.

(** The text is at least as long as the scanner goes deep. *)
Lemma concat_length_items {A} (size : A -> nat) (enc : A -> string) (sep : string)
    (l : list A) :
  1 <= length sep ->
  Forall (fun x => size x <= length (enc x)) l ->
  list_sum (map (fun x => S (size x)) l) <= S (length (concat sep (map enc l))).
Proof.
  intros Hsep. induction 1 as [|x l Hx Hl IH]; [cbn; lia|].
  destruct l as [|y l].
  - cbn [map list_sum fold_right concat]. lia.
  - cbn [map] in IH |- *. rewrite concat_more, !length_append.
    cbn [list_sum fold_right] in IH |- *. lia.
Qed.

Lemma length_encode_string (s : string) : 1 <= length (encode_string s).
Proof. unfold encode_string. cbn. lia. Qed.

Lemma json_size_length (v : json) : forall level,
  json_size v <= length (iterencode v level).
Proof.
  induction v as [|b|n|s|items IH|members IH] using json_nested_ind; intro level.
  - cbn. lia.
  - destruct b; cbn; lia.
  - destruct (str_int_first n) as (c & r & Hs & _). cbn [iterencode json_size].
    rewrite Hs. cbn. lia.
  - cbn [iterencode json_size]. apply length_encode_string.
  - destruct items as [|x l]; [cbn; lia|].
    cbn [iterencode json_size]. rewrite !length_append.
    pose proof (concat_length_items json_size (fun x => iterencode x (S level))
                  ("," ++ newline_indent (S level)) (x :: l)) as H.
    rewrite length_append in H. cbn [length] in H |- *.
    specialize (H ltac:(lia)).
    assert (Forall (fun x => json_size x <= length (iterencode x (S level))) (x :: l)) as Hall
      by (eapply Forall_impl; [|exact IH]; intros a Ha; apply Ha).
    specialize (H Hall). lia.
  - destruct members as [|kv l]; [cbn; lia|].
    cbn [iterencode json_size].
    change (fun kv0 : string * json => let '(k, x) := kv0 in
              encode_string k ++ ": " ++ iterencode x (S level))
      with (encode_member (S level)).
    replace (map (fun kv0 : string * json => let '(_, x) := kv0 in S (json_size x)) (kv :: l))
      with (map (fun kv0 : string * json => S (json_size (snd kv0))) (kv :: l))
      by (apply map_ext; now intros [? ?]).
    rewrite !length_append.
    pose proof (concat_length_items (fun kv => json_size (snd kv))
                  (encode_member (S level))
                  ("," ++ newline_indent (S level)) (kv :: l)) as H.
    rewrite length_append in H. cbn [length] in H |- *.
    specialize (H ltac:(lia)).
    assert (Forall (fun kv => json_size (snd kv) <= length (encode_member (S level) kv))
              (kv :: l)) as Hall.
    { eapply Forall_impl; [|exact IH]. intros [k a] Ha. cbn [snd] in *.
      unfold encode_member. rewrite !length_append. specialize (Ha (S level)). lia. }
    specialize (H Hall). lia.
Qed.

Theorem json_loads_dumps (v : json) :
  unique_keys v -> json_loads (json_dumps_indent2 v) = Some v.
Proof.
  intro Hu. unfold json_loads, json_dumps_indent2.
  pose proof (value_then v 0 "") as [Hskip _].
  rewrite append_nil_r in Hskip. rewrite Hskip.
  rewrite <- (append_nil_r (iterencode v 0)) at 2.
  rewrite (scan_once_iterencode v Hu); [reflexivity| |reflexivity].
  pose proof (json_size_length v 0). lia.
Qed.

Theorem json_loads_dumps_loads (s : string) (v : json) :
  json_loads s = Some v -> json_loads (json_dumps_indent2 v) = Some v.
Proof. intro H. eapply json_loads_dumps, json_loads_unique_keys, H. Qed.

(** ** Fuel *)

Lemma skip_ws_length (s : string) : length (skip_ws s) <= length s.
Proof.
  induction s as [|c s IH]; [reflexivity|].
  cbn [skip_ws]. destruct (is_ws c); cbn [length]; lia.
Qed.

Lemma nextchar_advance (c : ascii) (s : string) :
  nextchar_is c s = true -> length s = S (length (advance s)).
Proof. destruct s; [discriminate | reflexivity]. Qed.

Lemma cons_char_length (c : ascii) (o : option (string * string)) (k r : string) (n : nat) :
  cons_char c o = Some (k, r) ->
  (forall k' r', o = Some (k', r') -> length r' < n) -> length r < n.
Proof.
  destruct o as [[k' r']|]; [|discriminate]. cbn. intros H Hn.
  inversion H; subst. eapply Hn. reflexivity.
Qed.

Lemma scan_string_length (n : nat) : forall s k r,
  length s <= n -> scan_string s = Some (k, r) -> length r < length s.
Proof.
  induction n as [|n IH]; intros s k r Hn H.
  - destruct s; [discriminate | cbn in Hn; lia].
  - destruct s as [|c s]; [discriminate|].
    cbn [scan_string] in H. cbn [length] in Hn |- *.
    destruct (c =? "034")%char; [inversion H; subst; lia|].
    destruct (c =? "\")%char.
    + destruct s as [|e s]; [discriminate|]. cbn [length] in Hn |- *.
      destruct (e =? "u")%char.
      * destruct s as [|h1 [|h2 [|h3 [|h4 s]]]]; try discriminate.
        cbn [length] in Hn |- *.
        destruct (hex4 h1 h2 h3 h4) as [m|]; [|discriminate].
        destruct (m <? 256)%N; [|discriminate].
        eapply cons_char_length in H; [|intros k' r' E; eapply (IH s); [lia | exact E]].
        lia.
      * destruct (unescape e); [|discriminate].
        eapply cons_char_length in H; [|intros k' r' E; eapply (IH s); [lia | exact E]].
        lia.
    + destruct (code c <? 32)%N; [discriminate|].
      eapply cons_char_length in H; [|intros k' r' E; eapply (IH s); [lia | exact E]].
      lia.
Qed.

Lemma scan_digits_length (s : string) : forall a, length (snd (scan_digits s a)) <= length s.
Proof.
  induction s as [|c s IH]; intro a; [reflexivity|].
  cbn [scan_digits]. destruct (is_digit c); [|reflexivity].
  specialize (IH (10 * a + digit_val c)%Z). cbn [length]. lia.
Qed.

Lemma scan_nat_length (s : string) (n : Z) (r : string) :
  scan_nat s = Some (n, r) -> length r < length s.
Proof.
  destruct s as [|c s]; [discriminate|]. cbn [scan_nat length].
  destruct (c =? "0")%char; [intro H; inversion H; subst; lia|].
  destruct (is_digit c); [|discriminate].
  intro H. inversion H as [E].
  pose proof (scan_digits_length s (digit_val c)) as Hl. rewrite E in Hl. cbn in Hl. lia.
Qed.

Lemma scan_int_length (s : string) (n : Z) (r : string) :
  scan_int s = Some (n, r) -> length r < length s.
Proof.
  unfold scan_int.
  assert (forall s', match scan_nat s' with
                     | Some (n0, r') => Some ((- n0)%Z, r')
                     | None => None
                     end = Some (n, r) -> length r < length s') as Hneg.
  { intros s' H. destruct (scan_nat s') as [[n0 r']|] eqn:E; [|discriminate].
    inversion H; subst. eapply scan_nat_length, E. }
  destruct s as [|c s]; [discriminate|].
  destruct (Ascii.eqb_spec c "-") as [->|Hc].
  - intro H. apply Hneg in H. cbn [length]. lia.
  - all_chars c; try (exfalso; apply Hc; reflexivity); apply scan_nat_length.
Qed.

Lemma strip_prefix_length (p : string) : forall s r,
  strip_prefix p s = Some r -> length s = length p + length r.
Proof.
  induction p as [|a p IH]; intros s r H.
  - inversion H; reflexivity.
  - destruct s as [|b s]; [discriminate|]. cbn [strip_prefix] in H.
    destruct (a =? b)%char; [|discriminate]. cbn [length]. rewrite (IH _ _ H). lia.
Qed.

(** Fuel is never the reason for a rejection: a scan that succeeds with
    some fuel consumes at least one character and succeeds with any fuel
    that is at least the number of characters consumed. *)
Lemma scan_fuel (fuel : nat) :
  (forall s v r, scan_once fuel s = Some (v, r) ->
     length r < length s
     /\ forall f, length s - length r <= f -> scan_once f s = Some (v, r))
  /\ (forall s vs r, JSONArray_items fuel s = Some (vs, r) ->
        length r < length s
        /\ forall f, length s - length r <= f -> JSONArray_items f s = Some (vs, r))
  /\ (forall s ps r, JSONObject_pairs fuel s = Some (ps, r) ->
        length r < length s
        /\ forall f, length s - length r <= f -> JSONObject_pairs f s = Some (ps, r)).
Proof.
  induction fuel as [|fuel (IHv & IHa & IHo)]; [repeat split; discriminate|].
  split; [|split].
  - intros s v r H. cbn [scan_once] in H. cbv zeta in H.
    destruct s as [|c s]; [discriminate|]. cbn [length].
    assert (forall f (P : Prop), (forall f', f = S f' -> P) ->
              S (length s) - length r <= f -> length r < S (length s) -> P) as Hpos.
    { intros [|f'] P HP Hle Hlt; [lia | now apply (HP f')]. }
    destruct (c =? "034")%char eqn:Hq.
    { destruct (scan_string s) as [[k r']|] eqn:E; [|discriminate].
      inversion H; subst.
      pose proof (scan_string_length _ _ _ _ (le_n _) E) as Hl.
      split; [lia|]. intros f Hf. eapply Hpos; [|exact Hf|lia]. intros f' ->.
      cbn [scan_once]. now rewrite Hq, E. }
    destruct (c =? "{")%char eqn:Hob.
    { pose proof (skip_ws_length s) as Hws.
      destruct (nextchar_is "}" (skip_ws s)) eqn:Hn.
      - inversion H; subst. pose proof (nextchar_advance _ _ Hn) as Hl.
        split; [lia|]. intros f Hf. eapply Hpos; [|exact Hf|lia]. intros f' ->.
        cbn [scan_once]. cbv zeta. now rewrite Hq, Hob, Hn.
      - destruct (JSONObject_pairs fuel (skip_ws s)) as [[ps r']|] eqn:E; [|discriminate].
        inversion H; subst. destruct (IHo _ _ _ E) as [Hl Hf'].
        split; [lia|]. intros f Hf. eapply Hpos; [|exact Hf|lia]. intros f' ->.
        cbn [scan_once]. cbv zeta. rewrite Hq, Hob, Hn, Hf'; [reflexivity | lia]. }
    destruct (c =? "[")%char eqn:Har.
    { pose proof (skip_ws_length s) as Hws.
      destruct (nextchar_is "]" (skip_ws s)) eqn:Hn.
      - inversion H; subst. pose proof (nextchar_advance _ _ Hn) as Hl.
        split; [lia|]. intros f Hf. eapply Hpos; [|exact Hf|lia]. intros f' ->.
        cbn [scan_once]. cbv zeta. now rewrite Hq, Hob, Har, Hn.
      - destruct (JSONArray_items fuel (skip_ws s)) as [[vs r']|] eqn:E; [|discriminate].
        inversion H; subst. destruct (IHa _ _ _ E) as [Hl Hf'].
        split; [lia|]. intros f Hf. eapply Hpos; [|exact Hf|lia]. intros f' ->.
        cbn [scan_once]. cbv zeta. rewrite Hq, Hob, Har, Hn, Hf'; [reflexivity | lia]. }
    assert (length r < S (length s)) as Hlt.
    { destruct (strip_prefix "null" _) eqn:E1;
        [inversion H; subst; apply strip_prefix_length in E1; cbn in E1; lia|].
      destruct (strip_prefix "true" _) eqn:E2;
        [inversion H; subst; apply strip_prefix_length in E2; cbn in E2; lia|].
      destruct (strip_prefix "false" _) eqn:E3;
        [inversion H; subst; apply strip_prefix_length in E3; cbn in E3; lia|].
      destruct (scan_int _) as [[n r']|] eqn:E4; [|discriminate].
      destruct (float_tail r'); [discriminate|]. inversion H; subst.
      apply scan_int_length in E4. cbn in E4. lia. }
    split; [exact Hlt|]. intros f Hf. eapply Hpos; [|exact Hf|lia]. intros f' ->.
    cbn [scan_once]. cbv zeta. rewrite Hq, Hob, Har. exact H.
  - intros s vs r H. rewrite JSONArray_items_step in H. cbv zeta in H.
    destruct (scan_once fuel s) as [[x r0]|] eqn:E; [|discriminate].
    destruct (IHv _ _ _ E) as [Hl0 Hf0].
    pose proof (skip_ws_length r0) as Hws.
    destruct (nextchar_is "]" (skip_ws r0)) eqn:Hc.
    + inversion H; subst. pose proof (nextchar_advance _ _ Hc) as Hl.
      split; [lia|]. intros [|f] Hf; [lia|].
      rewrite JSONArray_items_step, Hf0 by lia. cbv zeta. now rewrite Hc.
    + destruct (nextchar_is "," (skip_ws r0)) eqn:Hs; [|discriminate].
      pose proof (nextchar_advance _ _ Hs) as Hl.
      pose proof (skip_ws_length (advance (skip_ws r0))) as Hws'.
      destruct (JSONArray_items fuel _) as [[vs' r']|] eqn:E'; [|discriminate].
      inversion H; subst. destruct (IHa _ _ _ E') as [Hl1 Hf1].
      split; [lia|]. intros [|f] Hf; [lia|].
      rewrite JSONArray_items_step, Hf0 by lia. cbv zeta.
      rewrite Hc, Hs, Hf1; [reflexivity | lia].
  - intros s ps r H. rewrite JSONObject_pairs_step in H. cbv zeta in H.
    destruct (nextchar_is "034" s) eqn:Hq; [|discriminate].
    pose proof (nextchar_advance _ _ Hq) as Lq.
    destruct (scan_string (advance s)) as [[k r1]|] eqn:Ek; [|discriminate].
    pose proof (scan_string_length _ _ _ _ (le_n _) Ek) as Lk.
    pose proof (skip_ws_length r1) as W1.
    destruct (nextchar_is ":" (skip_ws r1)) eqn:Hcol; [|discriminate].
    pose proof (nextchar_advance _ _ Hcol) as Lcol.
    pose proof (skip_ws_length (advance (skip_ws r1))) as W2.
    destruct (scan_once fuel _) as [[x r3]|] eqn:E; [|discriminate].
    destruct (IHv _ _ _ E) as [Hl0 Hf0].
    pose proof (skip_ws_length r3) as W3.
    destruct (nextchar_is "}" (skip_ws r3)) eqn:Hc.
    + inversion H; subst. pose proof (nextchar_advance _ _ Hc) as Hl.
      split; [lia|]. intros [|f] Hf; [lia|].
      rewrite JSONObject_pairs_step, Hq, Ek. cbv zeta.
      rewrite Hcol, Hf0 by lia. now rewrite Hc.
    + destruct (nextchar_is "," (skip_ws r3)) eqn:Hs; [|discriminate].
      pose proof (nextchar_advance _ _ Hs) as Hl.
      pose proof (skip_ws_length (advance (skip_ws r3))) as W4.
      destruct (JSONObject_pairs fuel _) as [[ps' r']|] eqn:E'; [|discriminate].
      inversion H; subst. destruct (IHo _ _ _ E') as [Hl1 Hf1].
      split; [lia|]. intros [|f] Hf; [lia|].
      rewrite JSONObject_pairs_step, Hq, Ek. cbv zeta.
      rewrite Hcol, Hf0 by lia. rewrite Hc, Hs, Hf1; [reflexivity | lia].
Qed.

(** [json_loads] gives every scan the fuel it can use. *)
Theorem json_loads_fuel (fuel : nat) (s : string) (v : json) (r : string) :
  scan_once fuel (skip_ws s) = Some (v, r) ->
  scan_once (S (length s)) (skip_ws s) = Some (v, r).
Proof.
  intro H. destruct (proj1 (scan_fuel fuel) _ _ _ H) as [_ Hf].
  apply Hf. pose proof (skip_ws_length s). lia.
Qed.

(** ** The shape of one dispatch *)

Section DispatchFacts.

Variable backend : Request -> http_outcome.
Variable decode_error : string -> string.

Lemma get_json_run (u : string) (p : dict) (log : list Request) :
  get_json backend decode_error u p log
  = (answer_of (decode_json_body decode_error) (backend (mkRequest u p)),
     (log ++ [mkRequest u p])%list).
Proof.
  unfold get_json, bind, client_get, raise_for_status, response_json,
    answer_of, decode_json_body, ret, raise.
  destruct (backend (mkRequest u p)) as [r|e]; [|reflexivity].
  destruct (is_success r); [|reflexivity].
  destruct (json_loads (content r)); reflexivity.
Qed.

(** Building the query of [devdash_get_logs] sends nothing; it either
    yields the parameters or stops on the comparison inside [min]. *)
Lemma get_logs_params_run (arguments : dict) (log : list Request) :
  (exists p, get_logs_params arguments log = (Ok p, log))
  \/ (exists cls msg,
        get_logs_params arguments log = (Raise (OtherException cls msg), log)).
Proof.
  unfold get_logs_params, bind, dict_getitem, dict_contains, py_min_int, ret, raise.
  destruct (dict_get arguments "count") as [c|];
    destruct (dict_get arguments "level") as [l|];
    destruct (dict_get arguments "category") as [g|];
    try destruct c; try destruct (truthy g); eauto.
Qed.

Lemma decoder_of_json (name : string) :
  In name json_tools -> decoder_of decode_error name = decode_json_body decode_error.
Proof.
  unfold json_tools, decoder_of.
  intros [<-|[<-|[<-|[<-|[]]]]]; reflexivity.
Qed.

Lemma decoder_of_run (name : string) (r : Response) :
  (exists b, decoder_of decode_error name r = Ok [b])
  \/ (exists cls msg, decoder_of decode_error name r = Raise (OtherException cls msg)).
Proof.
  unfold decoder_of, decode_json_body, decode_image_body.
  destruct (name =? "devdash_screenshot")%string; [eauto|].
  destruct (json_loads (content r)); eauto.
Qed.

Lemma call_tool_body_shape (name : string) (arguments : dict) :
  body_shape backend decode_error name
    (call_tool_body backend decode_error name arguments []).
Proof.
  unfold call_tool_body.
  destruct (String.eqb_spec name "devdash_get_state") as [->|_].
  { rewrite get_json_run. apply shape_sent. }
  destruct (String.eqb_spec name "devdash_get_warnings") as [->|_].
  { rewrite get_json_run. apply shape_sent. }
  destruct (String.eqb_spec name "devdash_list_windows") as [->|_].
  { rewrite get_json_run. apply shape_sent. }
  destruct (String.eqb_spec name "devdash_get_logs") as [->|_].
  { unfold bind.
    destruct (get_logs_params_run arguments []) as [[p Hp]|[cls [msg Hp]]];
      rewrite Hp.
    - rewrite get_json_run. apply shape_sent.
    - apply shape_stopped. }
  destruct (String.eqb_spec name "devdash_screenshot") as [->|_].
  { destruct (negb (truthy _)).
    - apply shape_local.
    - match goal with |- context [client_get _ ?u ?p] =>
        generalize (shape_sent backend decode_error "devdash_screenshot" u p)
      end.
      unfold bind, client_get, raise_for_status, ret, raise, answer_of,
        decoder_of, decode_image_body. simpl.
      destruct (backend _) as [r|e]; [destruct (is_success r)|]; intro H; exact H. }
  apply shape_local.
Qed.

Lemma handlers_run (e : exn) (log : list Request) :
  exists t, handlers e log = (Ok [TextContent t], log).
Proof. destruct e; simpl; unfold ret; eauto. Qed.

Lemma call_tool_unfold (name : string) (arguments : dict) :
  call_tool backend decode_error name arguments
  = match call_tool_body backend decode_error name arguments [] with
    | (Ok a, log) => (Ok a, log)
    | (Raise e, log) => handlers e log
    end.
Proof. reflexivity. Qed.

(** The handlers send nothing: the requests of a dispatch are those of the
    [try] body. *)
Lemma call_tool_requests (name : string) (arguments : dict) :
  snd (call_tool backend decode_error name arguments)
  = snd (call_tool_body backend decode_error name arguments []).
Proof.
  rewrite call_tool_unfold.
  destruct (call_tool_body backend decode_error name arguments []) as [[a|e] log];
    [reflexivity|].
  destruct (handlers_run e log) as [t Ht]. now rewrite Ht.
Qed.

Lemma call_tool_one_block (name : string) (arguments : dict) :
  exists b, fst (call_tool backend decode_error name arguments) = Ok [b].
Proof.
  rewrite call_tool_unfold.
  destruct (call_tool_body_shape name arguments) as [t|cls msg|u p].
  - simpl. eauto.
  - simpl. eauto.
  - unfold answer_of. destruct (backend (mkRequest u p)) as [r|e].
    + destruct (is_success r).
      * destruct (decoder_of_run name r) as [[b Hb]|[cls [msg Hb]]];
          rewrite Hb; simpl; eauto.
      * simpl. eauto.
    + destruct (handlers_run e [mkRequest u p]) as [t Ht]. rewrite Ht. simpl; eauto.
Qed.

(** A dispatch whose [try] body raises answers with one text block. *)
Lemma call_tool_raised (name : string) (arguments : dict) (e : exn)
    (log : list Request) :
  call_tool_body backend decode_error name arguments [] = (Raise e, log) ->
  call_tool backend decode_error name arguments = handlers e log.
Proof. intro H. now rewrite call_tool_unfold, H. Qed.

Lemma call_tool_raised_text (name : string) (arguments : dict) (e : exn)
    (log : list Request) :
  call_tool_body backend decode_error name arguments [] = (Raise e, log) ->
  exists t, fst (call_tool backend decode_error name arguments) = Ok [TextContent t].
Proof.
  intro H. rewrite (call_tool_raised _ _ _ _ H).
  destruct (handlers_run e log) as [t Ht]. rewrite Ht. exists t. reflexivity.
Qed.

(** What the dispatcher does with the answer to the request it sent. *)
Lemma call_tool_sent (name : string) (arguments : dict) (request : Request) :
  In request (snd (call_tool backend decode_error name arguments)) ->
  call_tool_body backend decode_error name arguments []
  = (answer_of (decoder_of decode_error name) (backend request), [request]).
Proof.
  rewrite call_tool_requests.
  destruct (call_tool_body_shape name arguments) as [t|cls msg|u p]; simpl.
  - intros [].
  - intros [].
  - intros [<-|[]]. reflexivity.
Qed.

End DispatchFacts.

(** ** The query of [devdash_get_logs] *)

Section LogsQuery.

Variable backend : Request -> http_outcome.
Variable decode_error : string -> string.

(** The one request of [devdash_get_logs] carries the parameters that
    [get_logs_params] built; when building them raises, nothing is sent. *)
Lemma get_logs_requests (arguments : dict) :
  snd (call_tool backend decode_error "devdash_get_logs" arguments)
  = match fst (get_logs_params arguments []) with
    | Ok p => [mkRequest (DEVTOOLS_BASE_URL ++ "/api/logs") p]
    | Raise _ => []
    end.
Proof.
  rewrite call_tool_requests. unfold call_tool_body. cbn [String.eqb Ascii.eqb Bool.eqb].
  unfold bind.
  destruct (get_logs_params_run arguments []) as [[p Hp]|[cls [msg Hp]]]; rewrite Hp.
  - rewrite get_json_run. reflexivity.
  - reflexivity.
Qed.

Lemma get_logs_params_count (arguments : dict) (n : Z) :
  dict_get arguments "count" = Some (JInt n) ->
  exists p, fst (get_logs_params arguments []) = Ok p
            /\ dict_get p "count" = Some (if (1000 <? n)%Z then JInt 1000 else JInt n).
Proof.
  intro Hc.
  unfold get_logs_params, bind, dict_getitem, dict_contains, py_min_int, ret, raise.
  rewrite Hc.
  destruct (dict_get arguments "level") as [l|];
    destruct (dict_get arguments "category") as [g|];
    try destruct (truthy g); eexists; split; reflexivity.
Qed.

Lemma get_logs_params_absent (arguments p : dict) (key : string) :
  In key ["count"; "level"; "category"] ->
  dict_get arguments key = None
  \/ key = "category" /\ dict_get arguments key = Some (JString "") ->
  fst (get_logs_params arguments []) = Ok p ->
  dict_get p key = None.
Proof.
  intros Hkey Habsent.
  unfold get_logs_params, bind, dict_getitem, dict_contains, py_min_int, ret, raise.
  destruct Hkey as [<-|[<-|[<-|[]]]];
    (destruct Habsent as [Ha|[Hk Ha]]; [|try discriminate Hk]); rewrite ?Ha;
    destruct (dict_get arguments "count") as [c|];
    destruct (dict_get arguments "level") as [l|];
    destruct (dict_get arguments "category") as [g|];
    try discriminate Ha;
    try destruct c; try destruct (truthy g);
    cbn; intro H; inversion H; reflexivity.
Qed.

End LogsQuery.

(** ** Worked examples *)

Example loads_rpm :
  json_loads ("{" ++ quoted "rpm" ++ ": 3000}") = Some (JObject [("rpm", JInt 3000)]).
Proof. reflexivity. Qed.

Example dumps_nested :
  json_dumps_indent2
    (JObject [("rpm", JInt 3000); ("t", JArray [JInt (-5); JString "a\b"])])
  = "{" ++ String "010" ("  " ++ quoted "rpm" ++ ": 3000,")
    ++ String "010" ("  " ++ quoted "t" ++ ": [")
    ++ String "010" "    -5,"
    ++ String "010" ("    " ++ quoted "a\\b")
    ++ String "010" "  ]"
    ++ String "010" "}".
Proof. reflexivity. Qed.

Example loads_duplicate_key :
  json_loads ("{" ++ quoted "a" ++ ": 1, " ++ quoted "b" ++ ": 2, " ++ quoted "a" ++ ": 3}")
  = Some (JObject [("a", JInt 3); ("b", JInt 2)]).
Proof. reflexivity. Qed.

Example loads_rejects :
  json_loads "[1, 2" = None /\ json_loads "01" = None /\ json_loads "nul" = None
  /\ json_loads "[1,]" = None /\ json_loads "{} x" = None.
Proof. repeat split. Qed.

Example dumps_escapes :
  json_dumps_indent2 (JString (String "127" (String "200" (String "010" "/"))))
  = quoted "\u007f\u00c8\n/".
Proof. reflexivity. Qed.

Example loads_escapes :
  json_loads (quoted "\u0041\/\t\u00e9") = Some (JString (String "A" (String "/" (String "009" (String "233" ""))))).
Proof. reflexivity. Qed.

(** The edge of the model: floats, and characters above 00ff. *)
Example loads_outside_model :
  json_loads "1.5" = None /\ json_loads "1e3" = None /\ json_loads "NaN" = None
  /\ json_loads (quoted "\u20ac") = None.
Proof. repeat split. Qed.

Example b64encode_Man :
  b64encode "Man" = "TWFu" /\ b64encode "Ma" = "TWE=" /\ b64encode "M" = "TQ==".
Proof. repeat split. Qed.

Example unknown_tool_xyz :
  call_tool backend_refusing expecting_value "unknown_tool_xyz" []
  = (Ok [TextContent "Unknown tool: unknown_tool_xyz"], []).
Proof. reflexivity. Qed.

(** ** Properties of the specification *)

(** C1.  For every tool name, known or not, and every argument mapping,
    [call_tool] hands its caller a list of content blocks and never an
    exception, and the list is not empty.  Every failure ends in a single
    text block: a name outside the catalog is answered by
    [Unknown tool: <name>]; so is any exception raised in the [try] body;
    and in particular a request whose connection fails or that meets any
    other network fault, an answer with a status outside 2xx, and, for the
    JSON tools, a body that [json.loads] rejects. *)
Theorem call_tool_never_raises (backend : Request -> http_outcome)
    (decode_error : string -> string) (tool : string) (arguments : dict) :
  exists blocks,
    fst (call_tool backend decode_error tool arguments) = Ok blocks
    /\ blocks <> []
    /\ (In tool (map name list_tools)
        \/ blocks = [TextContent ("Unknown tool: " ++ tool)])
    /\ (forall e log,
          call_tool_body backend decode_error tool arguments [] = (Raise e, log) ->
          exists t, blocks = [TextContent t])
    /\ (forall request,
          In request (snd (call_tool backend decode_error tool arguments)) ->
          match backend request with
          | Failed _ => exists t, blocks = [TextContent t]
          | Responded r =>
              is_success r = false
              \/ In tool json_tools /\ json_loads (content r) = None ->
              exists t, blocks = [TextContent t]
          end).
Proof.
  destruct (call_tool_one_block backend decode_error tool arguments) as [b Hb].
  exists [b]. split; [exact Hb|]. split; [discriminate|].
  assert (forall e log,
            call_tool_body backend decode_error tool arguments [] = (Raise e, log) ->
            exists t, [b] = [TextContent t]) as Hraised.
  { intros e log Hraise.
    destruct (call_tool_raised_text _ _ _ _ _ _ Hraise) as [t Ht].
    rewrite Ht in Hb. inversion Hb. eauto. }
  split; [|split; [exact Hraised|]].
  - revert Hb. unfold call_tool, try_except, call_tool_body. cbn [map name list_tools In].
    destruct (String.eqb_spec tool "devdash_get_state"); [auto|].
    destruct (String.eqb_spec tool "devdash_get_warnings"); [auto 6|].
    destruct (String.eqb_spec tool "devdash_list_windows"); [auto 6|].
    destruct (String.eqb_spec tool "devdash_get_logs"); [auto 8|].
    destruct (String.eqb_spec tool "devdash_screenshot"); [auto 6|].
    cbn. intro Hb. inversion Hb. now right.
  - intros request Hsent.
    pose proof (call_tool_sent _ _ _ _ _ Hsent) as Hbody.
    destruct (backend request) as [r|e]; cbn [answer_of] in Hbody.
    + intros [Hstatus|[Htool Hnone]].
      * rewrite Hstatus in Hbody. eapply Hraised, Hbody.
      * destruct (is_success r); [|eapply Hraised, Hbody].
        rewrite (decoder_of_json _ _ Htool) in Hbody.
        unfold decode_json_body in Hbody. rewrite Hnone in Hbody.
        eapply Hraised, Hbody.
    + eapply Hraised, Hbody.
Qed.

(** C9.  For every tool name and argument mapping the list that [call_tool]
    returns has length exactly 1. *)
Theorem call_tool_returns_one_block (backend : Request -> http_outcome)
    (decode_error : string -> string) (tool : string) (arguments : dict) :
  exists blocks,
    fst (call_tool backend decode_error tool arguments) = Ok blocks
    /\ List.length blocks = 1.
Proof.
  destruct (call_tool_one_block backend decode_error tool arguments) as [b Hb].
  now exists [b].
Qed.

(** C5.  [devdash_screenshot] with a missing or empty [window] argument
    returns exactly the text block [Error: 'window' parameter is required]
    and sends no request. *)
Theorem screenshot_requires_window (backend : Request -> http_outcome)
    (decode_error : string -> string) (arguments : dict) :
  dict_get arguments "window" = None
  \/ dict_get arguments "window" = Some (JString "") ->
  call_tool backend decode_error "devdash_screenshot" arguments
  = (Ok [TextContent "Error: 'window' parameter is required"], []).
Proof.
  intro H. unfold call_tool, try_except, call_tool_body.
  cbn [String.eqb Ascii.eqb Bool.eqb].
  destruct H as [-> | ->]; reflexivity.
Qed.

Lemma screenshot_requires_window_witness :
  (dict_get [] "window" = None \/ dict_get [] "window" = Some (JString ""))
  /\ call_tool (backend_answering (mkResponse 200 "PNG")) expecting_value
       "devdash_screenshot" []
     = (Ok [TextContent "Error: 'window' parameter is required"], []).
Proof.
  split; [left; reflexivity|].
  apply (screenshot_requires_window _ _ []). left; reflexivity.
Defined.

(** C4.  For [devdash_get_logs] an integer [count] above 1000 is not
    rejected: the request is sent, to [/api/logs], with [count] 1000. *)
Theorem get_logs_count_clamped (backend : Request -> http_outcome)
    (decode_error : string -> string) (arguments : dict) (n : Z) :
  dict_get arguments "count" = Some (JInt n) ->
  (1000 < n)%Z ->
  exists p,
    snd (call_tool backend decode_error "devdash_get_logs" arguments)
    = [mkRequest (DEVTOOLS_BASE_URL ++ "/api/logs") p]
    /\ dict_get p "count" = Some (JInt 1000).
Proof.
  intros Hc Hn.
  destruct (get_logs_params_count arguments n Hc) as (p & Hp & Hcount).
  exists p. rewrite get_logs_requests, Hp. split; [reflexivity|].
  apply Z.ltb_lt in Hn. now rewrite Hn in Hcount.
Qed.

Lemma get_logs_count_5000 :
  dict_get [("count", JInt 5000)] "count" = Some (JInt 5000)
  /\ (1000 < 5000)%Z
  /\ exists p,
       snd (call_tool (backend_answering (mkResponse 200 "[]")) expecting_value
              "devdash_get_logs" [("count", JInt 5000)])
       = [mkRequest (DEVTOOLS_BASE_URL ++ "/api/logs") p]
       /\ dict_get p "count" = Some (JInt 1000).
Proof.
  split; [reflexivity|]. split; [reflexivity|].
  apply (get_logs_count_clamped _ _ [("count", JInt 5000)] 5000); reflexivity.
Defined.

(** C10.  For [devdash_get_logs] an integer [count] of at most 1000, zero and
    the negative integers included, reaches the backend unchanged: [min]
    bounds it from above only. *)
Theorem get_logs_count_forwarded (backend : Request -> http_outcome)
    (decode_error : string -> string) (arguments : dict) (n : Z) :
  dict_get arguments "count" = Some (JInt n) ->
  (n <= 1000)%Z ->
  exists p,
    snd (call_tool backend decode_error "devdash_get_logs" arguments)
    = [mkRequest (DEVTOOLS_BASE_URL ++ "/api/logs") p]
    /\ dict_get p "count" = Some (JInt n).
Proof.
  intros Hc Hn.
  destruct (get_logs_params_count arguments n Hc) as (p & Hp & Hcount).
  exists p. rewrite get_logs_requests, Hp. split; [reflexivity|].
  apply Z.ltb_ge in Hn. now rewrite Hn in Hcount.
Qed.

Lemma get_logs_count_negative :
  dict_get [("count", JInt (-5))] "count" = Some (JInt (-5))
  /\ (-5 <= 1000)%Z
  /\ exists p,
       snd (call_tool (backend_answering (mkResponse 200 "[]")) expecting_value
              "devdash_get_logs" [("count", JInt (-5))])
       = [mkRequest (DEVTOOLS_BASE_URL ++ "/api/logs") p]
       /\ dict_get p "count" = Some (JInt (-5)).
Proof.
  split; [reflexivity|]. split; [discriminate|].
  apply (get_logs_count_forwarded _ _ [("count", JInt (-5))] (-5));
    [reflexivity | discriminate].
Defined.

(** C7.  For every tool, when the request it sent is answered with a status
    outside 2xx, the result is a single text block that holds both the
    status code in decimal and the text of the response body as it came. *)
Theorem http_error_reports_status_and_body (backend : Request -> http_outcome)
    (decode_error : string -> string) (tool : string) (arguments : dict)
    (request : Request) (response : Response) :
  In request (snd (call_tool backend decode_error tool arguments)) ->
  backend request = Responded response ->
  is_success response = false ->
  exists t,
    fst (call_tool backend decode_error tool arguments) = Ok [TextContent t]
    /\ is_substring (str_int (status_code response)) t
    /\ is_substring (text response) t.
Proof.
  intros Hsent Hanswer Hstatus.
  pose proof (call_tool_sent _ _ _ _ _ Hsent) as Hbody.
  rewrite Hanswer in Hbody. cbn [answer_of] in Hbody. rewrite Hstatus in Hbody.
  rewrite (call_tool_raised _ _ _ _ _ _ Hbody). cbn [handlers ret fst].
  eexists. split; [reflexivity|]. split.
  - apply is_substring_here.
  - rewrite <- !append_assoc. apply is_substring_end.
Qed.

Lemma http_404_not_found :
  In (mkRequest (DEVTOOLS_BASE_URL ++ "/api/windows") [])
     (snd (call_tool (backend_answering (mkResponse 404 "not found")) expecting_value
             "devdash_list_windows" []))
  /\ backend_answering (mkResponse 404 "not found")
       (mkRequest (DEVTOOLS_BASE_URL ++ "/api/windows") [])
     = Responded (mkResponse 404 "not found")
  /\ is_success (mkResponse 404 "not found") = false
  /\ exists t,
       fst (call_tool (backend_answering (mkResponse 404 "not found")) expecting_value
              "devdash_list_windows" [])
       = Ok [TextContent t]
       /\ is_substring "404" t
       /\ is_substring "not found" t.
Proof.
  split; [left; reflexivity|]. split; [reflexivity|]. split; [reflexivity|].
  apply (http_error_reports_status_and_body
           (backend_answering (mkResponse 404 "not found")) expecting_value
           "devdash_list_windows" []
           (mkRequest (DEVTOOLS_BASE_URL ++ "/api/windows") [])
           (mkResponse 404 "not found"));
    [left; reflexivity | reflexivity | reflexivity].
Defined.

(** C8.  When the connection of the request that was sent is refused, the
    result is exactly one text block, the fixed sentence that contains
    [Cannot connect]; it does not depend on the exception's own message, and
    the catch-all handler writes the same text only for an exception whose
    description is that very sentence. *)
Theorem connection_refused_message (backend : Request -> http_outcome)
    (decode_error : string -> string) (tool : string) (arguments : dict)
    (request : Request) (msg : string) :
  In request (snd (call_tool backend decode_error tool arguments)) ->
  backend request = Failed (ConnectError msg) ->
  fst (call_tool backend decode_error tool arguments)
  = Ok [TextContent
          "Error: Cannot connect to DevDash. Make sure DevDash is running with DevTools server enabled."]
  /\ is_substring "Cannot connect"
       "Error: Cannot connect to DevDash. Make sure DevDash is running with DevTools server enabled."
  /\ forall cls m log,
       fst (handlers (OtherException cls m) log)
       = fst (call_tool backend decode_error tool arguments) ->
       m = "Cannot connect to DevDash. Make sure DevDash is running with DevTools server enabled.".
Proof.
  intros Hsent Hanswer.
  pose proof (call_tool_sent _ _ _ _ _ Hsent) as Hbody.
  rewrite Hanswer in Hbody. cbn [answer_of] in Hbody.
  rewrite (call_tool_raised _ _ _ _ _ _ Hbody). cbn [handlers ret fst].
  split; [reflexivity|]. split.
  - exists "Error: ", " to DevDash. Make sure DevDash is running with DevTools server enabled.".
    reflexivity.
  - intros cls m log H. inversion H. reflexivity.
Qed.

Lemma connection_refused_get_state :
  In (mkRequest (DEVTOOLS_BASE_URL ++ "/api/state") [])
     (snd (call_tool backend_refusing expecting_value "devdash_get_state" []))
  /\ backend_refusing (mkRequest (DEVTOOLS_BASE_URL ++ "/api/state") [])
     = Failed (ConnectError "All connection attempts failed")
  /\ fst (call_tool backend_refusing expecting_value "devdash_get_state" [])
     = Ok [TextContent
             "Error: Cannot connect to DevDash. Make sure DevDash is running with DevTools server enabled."].
Proof.
  split; [left; reflexivity|]. split; [reflexivity|].
  apply (connection_refused_message backend_refusing expecting_value
           "devdash_get_state" []
           (mkRequest (DEVTOOLS_BASE_URL ++ "/api/state") [])
           "All connection attempts failed");
    [left; reflexivity | reflexivity].
Defined.

(** C3, as stated, fails: the catalog does not list its tools in the order
    get_state, get_warnings, list_windows, get_logs, screenshot, neither
    under these names nor under the names with the prefix [devdash_] that
    the source gives them; the screenshot tool comes third. *)
Lemma list_tools_not_in_table_order :
  map name list_tools
  <> ["get_state"; "get_warnings"; "list_windows"; "get_logs"; "screenshot"]
  /\ map name list_tools
     <> map (append "devdash_")
          ["get_state"; "get_warnings"; "list_windows"; "get_logs"; "screenshot"]
  /\ nth_error (map name list_tools) 2 = Some "devdash_screenshot".
Proof. repeat split; discriminate. Qed.

(** C3, amended.  [list_tools] is a constant: on every call it is the same
    sequence of exactly five tools, named devdash_get_state,
    devdash_get_warnings, devdash_screenshot, devdash_list_windows and
    devdash_get_logs in this order, no name twice; and every request that
    [call_tool] sends for one of them goes to the route of that tool:
    [/api/state], [/api/warnings], [/api/screenshot], [/api/windows],
    [/api/logs]. *)
Theorem list_tools_catalog :
  List.length list_tools = 5
  /\ map name list_tools
     = ["devdash_get_state"; "devdash_get_warnings"; "devdash_screenshot";
        "devdash_list_windows"; "devdash_get_logs"]
  /\ NoDup (map name list_tools)
  /\ forall backend decode_error arguments,
       snd (call_tool backend decode_error "devdash_get_state" arguments)
       = [mkRequest (DEVTOOLS_BASE_URL ++ "/api/state") []]
       /\ snd (call_tool backend decode_error "devdash_get_warnings" arguments)
          = [mkRequest (DEVTOOLS_BASE_URL ++ "/api/warnings") []]
       /\ Forall (fun request => url request = DEVTOOLS_BASE_URL ++ "/api/screenshot")
            (snd (call_tool backend decode_error "devdash_screenshot" arguments))
       /\ snd (call_tool backend decode_error "devdash_list_windows" arguments)
          = [mkRequest (DEVTOOLS_BASE_URL ++ "/api/windows") []]
       /\ Forall (fun request => url request = DEVTOOLS_BASE_URL ++ "/api/logs")
            (snd (call_tool backend decode_error "devdash_get_logs" arguments)).
Proof.
  split; [reflexivity|]. split; [reflexivity|]. split.
  { cbn [map name list_tools].
    repeat (constructor; [cbn [In]; intuition discriminate|]). constructor. }
  intros backend decode_error arguments.
  repeat split.
  - rewrite call_tool_requests. unfold call_tool_body.
    cbn [String.eqb Ascii.eqb Bool.eqb]. now rewrite get_json_run.
  - rewrite call_tool_requests. unfold call_tool_body.
    cbn [String.eqb Ascii.eqb Bool.eqb]. now rewrite get_json_run.
  - rewrite call_tool_requests. unfold call_tool_body.
    cbn [String.eqb Ascii.eqb Bool.eqb].
    destruct (negb (truthy _)); [constructor|].
    unfold bind, client_get, raise_for_status, ret, raise. cbn [app].
    destruct (backend _) as [r|e]; [destruct (is_success r)|];
      repeat constructor.
  - rewrite call_tool_requests. unfold call_tool_body.
    cbn [String.eqb Ascii.eqb Bool.eqb]. now rewrite get_json_run.
  - rewrite get_logs_requests.
    destruct (fst (get_logs_params arguments [])); repeat constructor.
Qed.

(** C2, as stated, fails: [devdash_get_logs] with an empty argument mapping
    sends one request whose parameter mapping is empty, so no request
    carries a [count] and a [level], whatever their values. *)
Lemma get_logs_no_arguments_sends_no_defaults :
  snd (call_tool (backend_answering (mkResponse 200 "[]")) expecting_value
         "devdash_get_logs" [])
  = [mkRequest (DEVTOOLS_BASE_URL ++ "/api/logs") []]
  /\ ~ (exists request count level,
          In request
            (snd (call_tool (backend_answering (mkResponse 200 "[]")) expecting_value
                    "devdash_get_logs" []))
          /\ dict_get (params request) "count" = Some count
          /\ dict_get (params request) "level" = Some level).
Proof.
  split; [reflexivity|].
  intros (request & count & level & Hin & Hcount & _).
  destruct Hin as [<-|[]]. discriminate Hcount.
Qed.

(** C2, amended.  [devdash_get_logs] with an empty argument mapping sends
    one request to [/api/logs] with no query parameter at all; and for any
    argument mapping, a [count], [level] or [category] that is absent is
    absent from the request as well (no default is filled in), as is a
    [category] that is the empty string. *)
Theorem get_logs_omits_absent_arguments (backend : Request -> http_outcome)
    (decode_error : string -> string) (arguments : dict) (key : string)
    (request : Request) :
  In key ["count"; "level"; "category"] ->
  dict_get arguments key = None
  \/ key = "category" /\ dict_get arguments key = Some (JString "") ->
  In request (snd (call_tool backend decode_error "devdash_get_logs" arguments)) ->
  snd (call_tool backend decode_error "devdash_get_logs" [])
  = [mkRequest (DEVTOOLS_BASE_URL ++ "/api/logs") []]
  /\ url request = DEVTOOLS_BASE_URL ++ "/api/logs"
  /\ dict_get (params request) key = None.
Proof.
  intros Hkey Habsent Hsent. split; [now rewrite get_logs_requests|].
  rewrite get_logs_requests in Hsent.
  destruct (fst (get_logs_params arguments [])) as [p|e] eqn:Hp; [|destruct Hsent].
  destruct Hsent as [<-|[]]. split; [reflexivity|].
  cbn [params]. eapply get_logs_params_absent; eassumption.
Qed.

Lemma get_logs_empty_category_omitted :
  In "category" ["count"; "level"; "category"]
  /\ (dict_get [("level", JString "debug"); ("category", JString "")] "category" = None
      \/ "category" = "category"
         /\ dict_get [("level", JString "debug"); ("category", JString "")] "category"
            = Some (JString ""))
  /\ In (mkRequest (DEVTOOLS_BASE_URL ++ "/api/logs") [("level", JString "debug")])
       (snd (call_tool (backend_answering (mkResponse 200 "[]")) expecting_value
               "devdash_get_logs"
               [("level", JString "debug"); ("category", JString "")]))
  /\ snd (call_tool (backend_answering (mkResponse 200 "[]")) expecting_value
            "devdash_get_logs" [])
     = [mkRequest (DEVTOOLS_BASE_URL ++ "/api/logs") []]
  /\ url (mkRequest (DEVTOOLS_BASE_URL ++ "/api/logs") [("level", JString "debug")])
     = DEVTOOLS_BASE_URL ++ "/api/logs"
  /\ dict_get (params (mkRequest (DEVTOOLS_BASE_URL ++ "/api/logs")
                         [("level", JString "debug")])) "category"
     = None.
Proof.
  split; [right; right; left; reflexivity|].
  split; [right; split; reflexivity|].
  split; [left; reflexivity|].
  apply (get_logs_omits_absent_arguments
           (backend_answering (mkResponse 200 "[]")) expecting_value
           [("level", JString "debug"); ("category", JString "")] "category"
           (mkRequest (DEVTOOLS_BASE_URL ++ "/api/logs") [("level", JString "debug")]));
    [right; right; left; reflexivity | right; split; reflexivity | left; reflexivity].
Defined.

(** ** More on one dispatch *)

Section DispatchMore.

Variable backend : Request -> http_outcome.
Variable decode_error : string -> string.

Lemma call_tool_unknown (tool : string) (arguments : dict) :
  ~ In tool (map name list_tools) ->
  call_tool backend decode_error tool arguments
  = (Ok [TextContent ("Unknown tool: " ++ tool)], []).
Proof.
  intro Hnot. unfold call_tool, try_except, call_tool_body.
  cbn [map name list_tools In] in Hnot.
  destruct (String.eqb_spec tool "devdash_get_state"); [exfalso; auto|].
  destruct (String.eqb_spec tool "devdash_get_warnings"); [exfalso; auto 6|].
  destruct (String.eqb_spec tool "devdash_list_windows"); [exfalso; auto 6|].
  destruct (String.eqb_spec tool "devdash_get_logs"); [exfalso; auto 8|].
  destruct (String.eqb_spec tool "devdash_screenshot"); [exfalso; auto 6|].
  reflexivity.
Qed.

(** The three tools without arguments: one request, to a fixed route. *)
Lemma plain_tool_run (tool : string) (arguments : dict) :
  In tool ["devdash_get_state"; "devdash_get_warnings"; "devdash_list_windows"] ->
  exists u,
    In u ["http://127.0.0.1:18080/api/state"; "http://127.0.0.1:18080/api/warnings";
          "http://127.0.0.1:18080/api/windows"]
    /\ call_tool_body backend decode_error tool arguments []
       = (answer_of (decode_json_body decode_error) (backend (mkRequest u [])),
          [mkRequest u []]).
Proof.
  intros [<-|[<-|[<-|[]]]]; unfold call_tool_body;
    cbn [String.eqb Ascii.eqb Bool.eqb]; rewrite get_json_run;
    eexists; (split; [|reflexivity]); cbn; auto.
Qed.

Lemma screenshot_requests (arguments : dict) :
  snd (call_tool backend decode_error "devdash_screenshot" arguments)
  = match dict_get arguments "window" with
    | Some window =>
        if truthy window
        then [mkRequest (DEVTOOLS_BASE_URL ++ "/api/screenshot") [("window", window)]]
        else []
    | None => []
    end.
Proof.
  rewrite call_tool_requests. unfold call_tool_body.
  cbn [String.eqb Ascii.eqb Bool.eqb].
  destruct (dict_get arguments "window") as [w|]; [|reflexivity].
  destruct (truthy w); [|reflexivity]. cbn [negb].
  unfold bind, client_get, raise_for_status. cbn [app].
  destruct (backend _) as [r|e]; [destruct (is_success r)|]; reflexivity.
Qed.

Lemma screenshot_falsy_window (arguments : dict) :
  truthy (match dict_get arguments "window" with Some w => w | None => JNull end) = false ->
  call_tool backend decode_error "devdash_screenshot" arguments
  = (Ok [TextContent "Error: 'window' parameter is required"], []).
Proof.
  intro H. unfold call_tool, try_except, call_tool_body.
  cbn [String.eqb Ascii.eqb Bool.eqb]. now rewrite H.
Qed.

(** The parameters of [devdash_get_logs], in closed form: the keys. *)
Lemma get_logs_params_keys (arguments p : dict) :
  fst (get_logs_params arguments []) = Ok p ->
  map fst p
  = ((if dict_contains arguments "count" then ["count"] else [])
     ++ (if dict_contains arguments "level" then ["level"] else [])
     ++ (if truthy (match dict_get arguments "category" with
                    | Some c => c
                    | None => JNull
                    end)
         then ["category"] else []))%list.
Proof.
  unfold get_logs_params, bind, dict_getitem, dict_contains, py_min_int, ret, raise.
  destruct (dict_get arguments "count") as [c|];
    destruct (dict_get arguments "level") as [l|];
    destruct (dict_get arguments "category") as [g|];
    try destruct c; try destruct (truthy g);
    cbn; intro H; inversion H; reflexivity.
Qed.

Lemma get_logs_params_level (arguments p : dict) (level : json) :
  dict_get arguments "level" = Some level ->
  fst (get_logs_params arguments []) = Ok p ->
  dict_get p "level" = Some level.
Proof.
  intro Hl.
  unfold get_logs_params, bind, dict_getitem, dict_contains, py_min_int, ret, raise.
  rewrite Hl.
  destruct (dict_get arguments "count") as [c|];
    destruct (dict_get arguments "category") as [g|];
    try destruct c; try destruct (truthy g);
    cbn; intro H; inversion H; reflexivity.
Qed.

Lemma get_logs_params_category (arguments p : dict) (category : json) :
  dict_get arguments "category" = Some category ->
  truthy category = true ->
  fst (get_logs_params arguments []) = Ok p ->
  dict_get p "category" = Some category.
Proof.
  intros Hg Ht.
  unfold get_logs_params, bind, dict_getitem, dict_contains, py_min_int, ret, raise.
  rewrite Hg, Ht.
  destruct (dict_get arguments "count") as [c|];
    destruct (dict_get arguments "level") as [l|];
    try destruct c;
    cbn; intro H; inversion H; reflexivity.
Qed.

Lemma get_logs_params_count_bound (arguments p : dict) (m : Z) :
  fst (get_logs_params arguments []) = Ok p ->
  dict_get p "count" = Some (JInt m) ->
  (m <= 1000)%Z.
Proof.
  unfold get_logs_params, bind, dict_getitem, dict_contains, py_min_int, ret, raise.
  destruct (dict_get arguments "count") as [c|];
    destruct (dict_get arguments "level") as [l|];
    destruct (dict_get arguments "category") as [g|];
    try destruct c as [|b|n| | |]; try destruct (truthy g);
    cbn; intro H; inversion H; subst; cbn; intro Hc; try discriminate Hc;
    try (destruct b; discriminate Hc);
    (destruct (1000 <? n)%Z eqn:E; inversion Hc; subst;
     [lia | apply Z.ltb_ge in E; exact E]).
Qed.

Lemma get_logs_params_type_error (arguments : dict) (count : json) :
  dict_get arguments "count" = Some count ->
  match count with JInt _ | JBool _ => False | _ => True end ->
  get_logs_params arguments []
  = (Raise (OtherException "TypeError"
              ("'<' not supported between instances of 'int' and '"
               ++ type_name count ++ "'")), []).
Proof.
  intros Hc Hty.
  unfold get_logs_params, bind, dict_getitem, dict_contains, py_min_int, ret, raise.
  rewrite Hc. destruct count; try contradiction; reflexivity.
Qed.

End DispatchMore.

Section DispatchAcross.

Variable backend : Request -> http_outcome.
Variable decode_error : string -> string.

Lemma handlers_text (e : exn) (log : list Request) :
  exists t, fst (handlers e log) = Ok [TextContent (String "E" t)].
Proof. destruct e; cbn; eauto. Qed.

(** After a request, the answer is never the text for an unknown tool. *)
Lemma sent_not_unknown (tool : string) (arguments : dict) (request : Request)
    (s : string) :
  In request (snd (call_tool backend decode_error tool arguments)) ->
  fst (call_tool backend decode_error tool arguments)
  <> Ok [TextContent ("Unknown tool: " ++ s)].
Proof.
  intro Hsent. pose proof (call_tool_sent _ _ _ _ _ Hsent) as Hbody.
  rewrite call_tool_unfold, Hbody. unfold answer_of.
  destruct (backend request) as [r|e].
  - destruct (is_success r).
    + unfold decoder_of, decode_image_body, decode_json_body.
      destruct (tool =? "devdash_screenshot")%string; [discriminate|].
      destruct (json_loads (content r)) as [v|]; [|discriminate].
      unfold json_dumps_indent2.
      destruct (iterencode_first v 0) as (c & t & -> & Hc).
      cbn. intro H. inversion H. subst c. discriminate Hc.
    + discriminate.
  - destruct (handlers_text e [request]) as [t Ht]. rewrite Ht. discriminate.
Qed.

Lemma requests_of_backend (backend' : Request -> http_outcome)
    (decode_error' : string -> string) (tool : string) (arguments : dict) :
  snd (call_tool backend decode_error tool arguments)
  = snd (call_tool backend' decode_error' tool arguments).
Proof.
  destruct (in_dec string_dec tool (map name list_tools)) as [Hin|Hout].
  - cbn [map name list_tools In] in Hin.
    destruct Hin as [<-|[<-|[<-|[<-|[<-|[]]]]]].
    + rewrite !call_tool_requests. unfold call_tool_body.
      cbn [String.eqb Ascii.eqb Bool.eqb]. now rewrite !get_json_run.
    + rewrite !call_tool_requests. unfold call_tool_body.
      cbn [String.eqb Ascii.eqb Bool.eqb]. now rewrite !get_json_run.
    + now rewrite !screenshot_requests.
    + rewrite !call_tool_requests. unfold call_tool_body.
      cbn [String.eqb Ascii.eqb Bool.eqb]. now rewrite !get_json_run.
    + now rewrite !get_logs_requests.
  - now rewrite !call_tool_unknown.
Qed.

End DispatchAcross.

Section DispatchLast.

Variable backend : Request -> http_outcome.
Variable decode_error : string -> string.

Lemma get_logs_params_ok (arguments : dict) :
  match dict_get arguments "count" with
  | Some (JInt _) | Some (JBool _) | None => True
  | _ => False
  end ->
  exists p, get_logs_params arguments [] = (Ok p, []).
Proof.
  unfold get_logs_params, bind, dict_getitem, dict_contains, py_min_int, ret, raise.
  destruct (dict_get arguments "count") as [c|];
    destruct (dict_get arguments "level") as [l|];
    destruct (dict_get arguments "category") as [g|];
    try destruct c; try destruct (truthy g); try contradiction; eauto.
Qed.

Lemma handlers_error_text (e : exn) (log : list Request) :
  exists t, handlers e log = (Ok [TextContent ("Error: " ++ t)], log).
Proof. destruct e; cbn; unfold ret; eauto. Qed.

End DispatchLast.

(** ** Base64 *)

Lemma below_64 (n : N) : (n < 64)%N -> In n (map N.of_nat (seq 0 64)).
Proof.
  intro H. apply in_map_iff. exists (N.to_nat n). split; [apply N2Nat.id|].
  apply in_seq. lia.
Qed.

Lemma b64_char_facts (n : N) :
  (n < 64)%N ->
  b64_val (b64_char n) = Some n
  /\ (b64_char n =? "=")%char = false
  /\ is_b64_char (b64_char n) = true.
Proof.
  intro H. apply below_64 in H.
  assert (forallb (fun n => match b64_val (b64_char n) with
                            | Some m => (m =? n)%N
                            | None => false
                            end
                            && negb (b64_char n =? "=")%char
                            && is_b64_char (b64_char n))
            (map N.of_nat (seq 0 64)) = true) as Hall by (vm_compute; reflexivity).
  rewrite forallb_forall in Hall. specialize (Hall n H).
  apply andb_true_iff in Hall. destruct Hall as [Hall H3].
  apply andb_true_iff in Hall. destruct Hall as [H1 H2].
  destruct (b64_val (b64_char n)) as [m|]; [|discriminate].
  apply N.eqb_eq in H1. subst m.
  apply negb_true_iff in H2. auto.
Qed.

Lemma code_bound (c : ascii) : (code c < 256)%N.
Proof. apply N_ascii_bounded. Qed.

Lemma ascii_of_code (c : ascii) : ascii_of_N (code c) = c.
Proof. apply ascii_N_embedding. Qed.

Ltac n_arith := zify; Z.to_euclidean_division_equations; lia.

Lemma sextets (x y z : N) :
  (x < 256 -> y < 256 -> z < 256 ->
   x / 4 < 64 /\ x mod 4 * 16 + y / 16 < 64 /\ y mod 16 * 4 + z / 64 < 64
   /\ z mod 64 < 64 /\ x mod 4 * 16 < 64 /\ y mod 16 * 4 < 64
   /\ x / 4 * 4 + (x mod 4 * 16 + y / 16) / 16 = x
   /\ (x mod 4 * 16 + y / 16) mod 16 * 16 + (y mod 16 * 4 + z / 64) / 4 = y
   /\ (y mod 16 * 4 + z / 64) mod 4 * 64 + z mod 64 = z
   /\ x / 4 * 4 + (x mod 4 * 16) / 16 = x
   /\ (x mod 4 * 16 + y / 16) mod 16 * 16 + (y mod 16 * 4) / 4 = y)%N.
Proof. intros. repeat split; n_arith. Qed.

Lemma b64decode_step (a b c : ascii) (r : string) :
  b64decode (b64encode (String a (String b (String c r))))
  = match b64decode (b64encode r) with
    | Some rest => Some (String a (String b (String c rest)))
    | None => None
    end.
Proof.
  cbn [b64encode]. cbv zeta.
  destruct (sextets (code a) (code b) (code c) (code_bound a) (code_bound b) (code_bound c))
    as (H0 & H1 & H2 & H3 & _ & _ & E0 & E1 & E2 & _).
  destruct (b64_char_facts _ H0) as (V0 & _ & _).
  destruct (b64_char_facts _ H1) as (V1 & _ & _).
  destruct (b64_char_facts _ H2) as (V2 & P2 & _).
  destruct (b64_char_facts _ H3) as (V3 & P3 & _).
  cbn [b64decode]. rewrite V0, V1, P2, V2, P3, V3. cbv zeta.
  rewrite E0, E1, E2, !ascii_of_code. reflexivity.
Qed.

Lemma b64decode_b64encode_upto (n : nat) : forall s,
  length s <= n -> b64decode (b64encode s) = Some s.
Proof.
  induction n as [|n IH]; intros s Hn.
  - destruct s; [reflexivity | cbn in Hn; lia].
  - destruct s as [|a [|b [|c r]]].
    + reflexivity.
    + cbn [b64encode]. cbv zeta.
      destruct (sextets (code a) 0 0 (code_bound a) ltac:(lia) ltac:(lia))
        as (H0 & _ & _ & _ & H1 & _ & _ & _ & _ & E0 & _).
      destruct (b64_char_facts _ H0) as (V0 & _ & _).
      destruct (b64_char_facts _ H1) as (V1 & _ & _).
      cbn [b64decode]. rewrite V0, V1. cbn [Ascii.eqb Bool.eqb]. cbv zeta.
      now rewrite E0, ascii_of_code.
    + cbn [b64encode]. cbv zeta.
      destruct (sextets (code a) (code b) 0 (code_bound a) (code_bound b) ltac:(lia))
        as (H0 & H1 & _ & _ & _ & H2 & E0 & _ & _ & _ & E1).
      destruct (b64_char_facts _ H0) as (V0 & _ & _).
      destruct (b64_char_facts _ H1) as (V1 & _ & _).
      destruct (b64_char_facts _ H2) as (V2 & P2 & _).
      cbn [b64decode]. rewrite V0, V1, P2, V2. cbn [Ascii.eqb Bool.eqb]. cbv zeta.
      now rewrite E0, E1, !ascii_of_code.
    + rewrite b64decode_step, IH; [reflexivity|]. cbn [length] in Hn. lia.
Qed.

Lemma b64decode_b64encode (s : string) : b64decode (b64encode s) = Some s.
Proof. apply (b64decode_b64encode_upto (length s)). lia. Qed.

Lemma b64encode_shape_upto (n : nat) : forall s,
  length s <= n ->
  length (b64encode s) = 4 * ((length s + 2) / 3)
  /\ string_forallb is_b64_char (b64encode s) = true.
Proof.
  induction n as [|n IH]; intros s Hn.
  - destruct s; [split; reflexivity | cbn in Hn; lia].
  - destruct s as [|a [|b [|c r]]].
    + split; reflexivity.
    + destruct (sextets (code a) 0 0 (code_bound a) ltac:(lia) ltac:(lia))
        as (H0 & _ & _ & _ & H1 & _).
      destruct (b64_char_facts _ H0) as (_ & _ & A0).
      destruct (b64_char_facts _ H1) as (_ & _ & A1).
      split; [reflexivity|]. cbn [b64encode string_forallb]. cbv zeta.
      rewrite A0, A1. reflexivity.
    + destruct (sextets (code a) (code b) 0 (code_bound a) (code_bound b) ltac:(lia))
        as (H0 & H1 & _ & _ & _ & H2 & _).
      destruct (b64_char_facts _ H0) as (_ & _ & A0).
      destruct (b64_char_facts _ H1) as (_ & _ & A1).
      destruct (b64_char_facts _ H2) as (_ & _ & A2).
      split; [reflexivity|]. cbn [b64encode string_forallb]. cbv zeta.
      rewrite A0, A1, A2. reflexivity.
    + destruct (IH r ltac:(cbn [length] in Hn; lia)) as [Hlen Hall].
      destruct (sextets (code a) (code b) (code c) (code_bound a) (code_bound b)
                  (code_bound c)) as (H0 & H1 & H2 & H3 & _).
      destruct (b64_char_facts _ H0) as (_ & _ & A0).
      destruct (b64_char_facts _ H1) as (_ & _ & A1).
      destruct (b64_char_facts _ H2) as (_ & _ & A2).
      destruct (b64_char_facts _ H3) as (_ & _ & A3).
      cbn [b64encode string_forallb length]. cbv zeta.
      rewrite A0, A1, A2, A3, Hall, Hlen. split; [|reflexivity].
      replace (S (S (S (length r))) + 2) with (length r + 2 + 1 * 3) by lia.
      rewrite Nat.div_add by lia. lia.
Qed.

(** ** The characters of JSON text *)











(** ** Further properties of the dispatcher *)

(** X1.  A name that is not in the catalog is answered by exactly the text
    block [Unknown tool: <name>], whatever the arguments, and no request is
    sent. *)
Theorem unknown_tool_answer (backend : Request -> http_outcome)
    (decode_error : string -> string) (tool : string) (arguments : dict) :
  ~ In tool (map name list_tools) ->
  call_tool backend decode_error tool arguments
  = (Ok [TextContent ("Unknown tool: " ++ tool)], []).
Proof. apply call_tool_unknown. Qed.

Lemma unknown_tool_answer_witness :
  ~ In "get_state" (map name list_tools)
  /\ call_tool backend_refusing expecting_value "get_state" [("window", JString "cluster")]
     = (Ok [TextContent "Unknown tool: get_state"], []).
Proof.
  assert (~ In "get_state" (map name list_tools)) as H
    by (cbn; intuition discriminate).
  split; [exact H|].
  exact (unknown_tool_answer backend_refusing expecting_value "get_state"
           [("window", JString "cluster")] H).
Defined.

(** X2.  One dispatch sends at most one request: there is no retry and no
    second call, whatever the backend answers. *)
Theorem call_tool_at_most_one_request (backend : Request -> http_outcome)
    (decode_error : string -> string) (tool : string) (arguments : dict) :
  List.length (snd (call_tool backend decode_error tool arguments)) <= 1.
Proof.
  rewrite call_tool_requests.
  destruct (call_tool_body_shape backend decode_error tool arguments); cbn; lia.
Qed.

(** X3.  What a dispatch sends depends on the tool name and the arguments
    only: two backends, however they answer, are sent the same requests. *)
Theorem requests_do_not_depend_on_backend
    (backend backend' : Request -> http_outcome)
    (decode_error decode_error' : string -> string)
    (tool : string) (arguments : dict) :
  snd (call_tool backend decode_error tool arguments)
  = snd (call_tool backend' decode_error' tool arguments).
Proof. apply requests_of_backend. Qed.

(** X4.  Every request of every dispatch goes to one of the five routes
    under [http://127.0.0.1:18080/api/]; no argument reaches the address. *)
Theorem requests_stay_on_fixed_routes (backend : Request -> http_outcome)
    (decode_error : string -> string) (tool : string) (arguments : dict) :
  Forall (fun request =>
            In (url request)
              ["http://127.0.0.1:18080/api/state";
               "http://127.0.0.1:18080/api/warnings";
               "http://127.0.0.1:18080/api/windows";
               "http://127.0.0.1:18080/api/logs";
               "http://127.0.0.1:18080/api/screenshot"])
    (snd (call_tool backend decode_error tool arguments)).
Proof.
  destruct (in_dec string_dec tool (map name list_tools)) as [Hin|Hout].
  - cbn [map name list_tools In] in Hin.
    destruct Hin as [<-|[<-|[<-|[<-|[<-|[]]]]]].
    + rewrite call_tool_requests. unfold call_tool_body.
      cbn [String.eqb Ascii.eqb Bool.eqb]. rewrite get_json_run.
      constructor; [cbn; auto|constructor].
    + rewrite call_tool_requests. unfold call_tool_body.
      cbn [String.eqb Ascii.eqb Bool.eqb]. rewrite get_json_run.
      constructor; [cbn; auto|constructor].
    + rewrite screenshot_requests.
      destruct (dict_get arguments "window") as [w|]; [|constructor].
      destruct (truthy w); constructor; [cbn; auto 6|constructor].
    + rewrite call_tool_requests. unfold call_tool_body.
      cbn [String.eqb Ascii.eqb Bool.eqb]. rewrite get_json_run.
      constructor; [cbn; auto|constructor].
    + rewrite get_logs_requests.
      destruct (fst (get_logs_params arguments [])); constructor; [cbn; auto 6|constructor].
  - rewrite (call_tool_unknown _ _ tool arguments Hout). constructor.
Qed.

(** X5.  The three tools that declare no arguments ignore whatever
    arguments they are called with: the result and the request are those of
    the call with the empty mapping. *)
Theorem plain_tools_ignore_arguments (backend : Request -> http_outcome)
    (decode_error : string -> string) (tool : string) (arguments : dict) :
  In tool ["devdash_get_state"; "devdash_get_warnings"; "devdash_list_windows"] ->
  call_tool backend decode_error tool arguments
  = call_tool backend decode_error tool [].
Proof.
  intros [<-|[<-|[<-|[]]]]; reflexivity.
Qed.

Lemma plain_tools_ignore_arguments_witness :
  In "devdash_get_warnings"
     ["devdash_get_state"; "devdash_get_warnings"; "devdash_list_windows"]
  /\ call_tool (backend_answering (mkResponse 200 "[]")) expecting_value
       "devdash_get_warnings" [("count", JInt 5); ("window", JString "cluster")]
     = call_tool (backend_answering (mkResponse 200 "[]")) expecting_value
         "devdash_get_warnings" [].
Proof.
  split; [right; left; reflexivity|].
  apply (plain_tools_ignore_arguments (backend_answering (mkResponse 200 "[]"))
           expecting_value "devdash_get_warnings"
           [("count", JInt 5); ("window", JString "cluster")]).
  right; left; reflexivity.
Defined.

(** X6.  [devdash_screenshot] with a truthy [window], answered with a 2xx
    status, sends one request to [/api/screenshot] whose only parameter is
    [window], forwarded as given, and returns exactly one image block: the
    body in base64 with the type [image/png]; the body is not inspected. *)
Theorem screenshot_returns_image (backend : Request -> http_outcome)
    (decode_error : string -> string) (arguments : dict) (window : json)
    (response : Response) :
  dict_get arguments "window" = Some window ->
  truthy window = true ->
  backend (mkRequest (DEVTOOLS_BASE_URL ++ "/api/screenshot") [("window", window)])
  = Responded response ->
  is_success response = true ->
  call_tool backend decode_error "devdash_screenshot" arguments
  = (Ok [ImageContent (b64encode (content response)) "image/png"],
     [mkRequest (DEVTOOLS_BASE_URL ++ "/api/screenshot") [("window", window)]]).
Proof.
  intros Hw Ht Hanswer Hstatus.
  unfold call_tool, try_except, call_tool_body.
  cbn [String.eqb Ascii.eqb Bool.eqb]. rewrite Hw, Ht. cbn [negb].
  unfold bind, client_get, raise_for_status. cbn [app].
  rewrite Hanswer, Hstatus. reflexivity.
Qed.

Lemma screenshot_returns_image_witness :
  dict_get [("window", JString "cluster")] "window" = Some (JString "cluster")
  /\ truthy (JString "cluster") = true
  /\ backend_answering (mkResponse 200 "PNG")
       (mkRequest (DEVTOOLS_BASE_URL ++ "/api/screenshot")
          [("window", JString "cluster")])
     = Responded (mkResponse 200 "PNG")
  /\ is_success (mkResponse 200 "PNG") = true
  /\ call_tool (backend_answering (mkResponse 200 "PNG")) expecting_value
       "devdash_screenshot" [("window", JString "cluster")]
     = (Ok [ImageContent "UE5H" "image/png"],
        [mkRequest (DEVTOOLS_BASE_URL ++ "/api/screenshot")
           [("window", JString "cluster")]]).
Proof.
  split; [reflexivity|]. split; [reflexivity|]. split; [reflexivity|].
  split; [reflexivity|].
  apply (screenshot_returns_image (backend_answering (mkResponse 200 "PNG"))
           expecting_value [("window", JString "cluster")] (JString "cluster")
           (mkResponse 200 "PNG")); reflexivity.
Defined.

(** X7.  An image block is returned only by [devdash_screenshot], only
    after a request to [/api/screenshot] that was answered with a 2xx
    status, and then its type is [image/png] and its data the base64 of the
    body: no other tool and no failure ever yields an image. *)
Theorem image_only_from_screenshot (backend : Request -> http_outcome)
    (decode_error : string -> string) (tool : string) (arguments : dict)
    (data mime : string) :
  fst (call_tool backend decode_error tool arguments) = Ok [ImageContent data mime] ->
  tool = "devdash_screenshot"
  /\ mime = "image/png"
  /\ exists request response,
       snd (call_tool backend decode_error tool arguments) = [request]
       /\ url request = DEVTOOLS_BASE_URL ++ "/api/screenshot"
       /\ backend request = Responded response
       /\ is_success response = true
       /\ data = b64encode (content response).
Proof.
  intro H.
  assert (tool = "devdash_screenshot") as ->.
  { revert H. rewrite call_tool_unfold.
    destruct (call_tool_body_shape backend decode_error tool arguments) as [t|cls msg|u p].
    - discriminate.
    - discriminate.
    - unfold answer_of, decoder_of.
      destruct (String.eqb_spec tool "devdash_screenshot") as [->|_]; [reflexivity|].
      destruct (backend _) as [r|e].
      + destruct (is_success r); [|discriminate].
        unfold decode_json_body. destruct (json_loads _); discriminate.
      + destruct (handlers_run e [mkRequest u p]) as [t Ht]. rewrite Ht. discriminate. }
  revert H. unfold call_tool, try_except, call_tool_body.
  cbn [String.eqb Ascii.eqb Bool.eqb].
  destruct (negb (truthy _)); [discriminate|].
  unfold bind, client_get, raise_for_status. cbn [app].
  destruct (backend _) as [r|e] eqn:Hanswer.
  - destruct (is_success r) eqn:Hstatus; [|discriminate].
    cbn. intro H. inversion H; subst.
    split; [reflexivity|]. split; [reflexivity|].
    eexists _, r. repeat split; try reflexivity; assumption.
  - match goal with |- context [handlers e ?l] =>
      destruct (handlers_run e l) as [t Ht]; rewrite Ht end.
    discriminate.
Qed.

Lemma image_only_from_screenshot_witness :
  fst (call_tool (backend_answering (mkResponse 200 "PNG")) expecting_value
         "devdash_screenshot" [("window", JString "cluster")])
  = Ok [ImageContent "UE5H" "image/png"]
  /\ "devdash_screenshot" = "devdash_screenshot"
  /\ "image/png" = "image/png".
Proof.
  split; [reflexivity|].
  destruct (image_only_from_screenshot (backend_answering (mkResponse 200 "PNG"))
              expecting_value "devdash_screenshot" [("window", JString "cluster")]
              "UE5H" "image/png" eq_refl) as (Htool & Hmime & _).
  split; [exact Htool | exact Hmime].
Defined.

(** X8.  For [devdash_screenshot] a [window] that is present but falsy
    (null, false, 0, the empty string, list or object) is treated like a
    missing one: the required-parameter text, and no request. *)
Theorem screenshot_falsy_window_is_missing (backend : Request -> http_outcome)
    (decode_error : string -> string) (arguments : dict) (window : json) :
  dict_get arguments "window" = Some window ->
  truthy window = false ->
  call_tool backend decode_error "devdash_screenshot" arguments
  = (Ok [TextContent "Error: 'window' parameter is required"], []).
Proof.
  intros Hw Ht. apply screenshot_falsy_window. now rewrite Hw.
Qed.

Lemma screenshot_window_zero :
  dict_get [("window", JInt 0)] "window" = Some (JInt 0)
  /\ truthy (JInt 0) = false
  /\ call_tool (backend_answering (mkResponse 200 "PNG")) expecting_value
       "devdash_screenshot" [("window", JInt 0)]
     = (Ok [TextContent "Error: 'window' parameter is required"], []).
Proof.
  split; [reflexivity|]. split; [reflexivity|].
  apply (screenshot_falsy_window_is_missing
           (backend_answering (mkResponse 200 "PNG")) expecting_value
           [("window", JInt 0)] (JInt 0)); reflexivity.
Defined.

(** X9.  [devdash_get_logs] forwards a supplied [level] unchanged, whatever
    its value: it is not checked against the levels the schema declares. *)
Theorem get_logs_level_forwarded (backend : Request -> http_outcome)
    (decode_error : string -> string) (arguments : dict) (level : json)
    (request : Request) :
  dict_get arguments "level" = Some level ->
  In request (snd (call_tool backend decode_error "devdash_get_logs" arguments)) ->
  dict_get (params request) "level" = Some level.
Proof.
  intros Hl Hsent. rewrite get_logs_requests in Hsent.
  destruct (fst (get_logs_params arguments [])) as [p|e] eqn:Hp; [|destruct Hsent].
  destruct Hsent as [<-|[]]. cbn [params].
  eapply get_logs_params_level; eassumption.
Qed.

Lemma get_logs_level_verbose :
  dict_get [("level", JString "verbose")] "level" = Some (JString "verbose")
  /\ In (mkRequest (DEVTOOLS_BASE_URL ++ "/api/logs") [("level", JString "verbose")])
       (snd (call_tool (backend_answering (mkResponse 200 "[]")) expecting_value
               "devdash_get_logs" [("level", JString "verbose")]))
  /\ dict_get (params (mkRequest (DEVTOOLS_BASE_URL ++ "/api/logs")
                         [("level", JString "verbose")])) "level"
     = Some (JString "verbose").
Proof.
  split; [reflexivity|]. split; [left; reflexivity|].
  apply (get_logs_level_forwarded (backend_answering (mkResponse 200 "[]"))
           expecting_value [("level", JString "verbose")] (JString "verbose")
           (mkRequest (DEVTOOLS_BASE_URL ++ "/api/logs") [("level", JString "verbose")]));
    [reflexivity | left; reflexivity].
Defined.

(** X10.  [devdash_get_logs] forwards a supplied, truthy [category]
    unchanged. *)
Theorem get_logs_category_forwarded (backend : Request -> http_outcome)
    (decode_error : string -> string) (arguments : dict) (category : json)
    (request : Request) :
  dict_get arguments "category" = Some category ->
  truthy category = true ->
  In request (snd (call_tool backend decode_error "devdash_get_logs" arguments)) ->
  dict_get (params request) "category" = Some category.
Proof.
  intros Hg Ht Hsent. rewrite get_logs_requests in Hsent.
  destruct (fst (get_logs_params arguments [])) as [p|e] eqn:Hp; [|destruct Hsent].
  destruct Hsent as [<-|[]]. cbn [params].
  eapply get_logs_params_category; eassumption.
Qed.

Lemma get_logs_category_broker :
  dict_get [("category", JString "devdash.broker")] "category"
  = Some (JString "devdash.broker")
  /\ truthy (JString "devdash.broker") = true
  /\ In (mkRequest (DEVTOOLS_BASE_URL ++ "/api/logs")
           [("category", JString "devdash.broker")])
       (snd (call_tool (backend_answering (mkResponse 200 "[]")) expecting_value
               "devdash_get_logs" [("category", JString "devdash.broker")]))
  /\ dict_get (params (mkRequest (DEVTOOLS_BASE_URL ++ "/api/logs")
                         [("category", JString "devdash.broker")])) "category"
     = Some (JString "devdash.broker").
Proof.
  split; [reflexivity|]. split; [reflexivity|]. split; [left; reflexivity|].
  apply (get_logs_category_forwarded (backend_answering (mkResponse 200 "[]"))
           expecting_value [("category", JString "devdash.broker")]
           (JString "devdash.broker")
           (mkRequest (DEVTOOLS_BASE_URL ++ "/api/logs")
              [("category", JString "devdash.broker")]));
    [reflexivity | reflexivity | left; reflexivity].
Defined.

(** X11.  [devdash_get_logs] with a [count] that is neither an integer nor
    a boolean (a string, null, a list, an object) sends nothing: [min]
    raises, and the result is the single text block with the message of the
    [TypeError]. *)
Theorem get_logs_count_type_error (backend : Request -> http_outcome)
    (decode_error : string -> string) (arguments : dict) (count : json) :
  dict_get arguments "count" = Some count ->
  match count with JInt _ | JBool _ => False | _ => True end ->
  call_tool backend decode_error "devdash_get_logs" arguments
  = (Ok [TextContent
           ("Error: '<' not supported between instances of 'int' and '"
            ++ type_name count ++ "'")], []).
Proof.
  intros Hc Hty. unfold call_tool, try_except, call_tool_body.
  cbn [String.eqb Ascii.eqb Bool.eqb]. unfold bind.
  rewrite (get_logs_params_type_error arguments count Hc Hty). reflexivity.
Qed.

Lemma get_logs_count_as_text :
  dict_get [("count", JString "5000")] "count" = Some (JString "5000")
  /\ match JString "5000" with JInt _ | JBool _ => False | _ => True end
  /\ call_tool (backend_answering (mkResponse 200 "[]")) expecting_value
       "devdash_get_logs" [("count", JString "5000")]
     = (Ok [TextContent
              "Error: '<' not supported between instances of 'int' and 'str'"], []).
Proof.
  split; [reflexivity|]. split; [exact I|].
  apply (get_logs_count_type_error (backend_answering (mkResponse 200 "[]"))
           expecting_value [("count", JString "5000")] (JString "5000"));
    [reflexivity | exact I].
Defined.

(** X12.  No request of [devdash_get_logs] carries an integer [count]
    above 1000. *)
Theorem get_logs_count_never_above_1000 (backend : Request -> http_outcome)
    (decode_error : string -> string) (arguments : dict) (request : Request)
    (m : Z) :
  In request (snd (call_tool backend decode_error "devdash_get_logs" arguments)) ->
  dict_get (params request) "count" = Some (JInt m) ->
  (m <= 1000)%Z.
Proof.
  intros Hsent Hm. rewrite get_logs_requests in Hsent.
  destruct (fst (get_logs_params arguments [])) as [p|e] eqn:Hp; [|destruct Hsent].
  destruct Hsent as [<-|[]]. cbn [params] in Hm.
  eapply get_logs_params_count_bound; eassumption.
Qed.

Lemma get_logs_count_never_above_1000_witness :
  In (mkRequest (DEVTOOLS_BASE_URL ++ "/api/logs") [("count", JInt 1000)])
     (snd (call_tool (backend_answering (mkResponse 200 "[]")) expecting_value
             "devdash_get_logs" [("count", JInt 123456)]))
  /\ dict_get (params (mkRequest (DEVTOOLS_BASE_URL ++ "/api/logs")
                         [("count", JInt 1000)])) "count"
     = Some (JInt 1000)
  /\ (1000 <= 1000)%Z.
Proof.
  split; [left; reflexivity|]. split; [reflexivity|].
  apply (get_logs_count_never_above_1000 (backend_answering (mkResponse 200 "[]"))
           expecting_value [("count", JInt 123456)]
           (mkRequest (DEVTOOLS_BASE_URL ++ "/api/logs") [("count", JInt 1000)]) 1000);
    [left; reflexivity | reflexivity].
Defined.

(** X13.  The request of [devdash_get_logs] has exactly the parameters
    [count], [level], [category], in this order, that were supplied
    ([category] only when truthy): the order of the arguments does not
    matter and an argument of any other name is never forwarded. *)
Theorem get_logs_query_keys (backend : Request -> http_outcome)
    (decode_error : string -> string) (arguments : dict) (request : Request) :
  In request (snd (call_tool backend decode_error "devdash_get_logs" arguments)) ->
  map fst (params request)
  = ((if dict_contains arguments "count" then ["count"] else [])
     ++ (if dict_contains arguments "level" then ["level"] else [])
     ++ (if truthy (match dict_get arguments "category" with
                    | Some c => c
                    | None => JNull
                    end)
         then ["category"] else []))%list.
Proof.
  intros Hsent. rewrite get_logs_requests in Hsent.
  destruct (fst (get_logs_params arguments [])) as [p|e] eqn:Hp; [|destruct Hsent].
  destruct Hsent as [<-|[]]. cbn [params].
  now apply get_logs_params_keys.
Qed.

Lemma get_logs_query_keys_witness :
  In (mkRequest (DEVTOOLS_BASE_URL ++ "/api/logs")
        [("count", JInt 7); ("level", JString "debug")])
     (snd (call_tool (backend_answering (mkResponse 200 "[]")) expecting_value
             "devdash_get_logs"
             [("since", JInt 60); ("level", JString "debug"); ("category", JNull);
              ("count", JInt 7)]))
  /\ map fst (params (mkRequest (DEVTOOLS_BASE_URL ++ "/api/logs")
                        [("count", JInt 7); ("level", JString "debug")]))
     = ["count"; "level"].
Proof.
  split; [left; reflexivity|].
  apply (get_logs_query_keys (backend_answering (mkResponse 200 "[]"))
           expecting_value
           [("since", JInt 60); ("level", JString "debug"); ("category", JNull);
            ("count", JInt 7)]
           (mkRequest (DEVTOOLS_BASE_URL ++ "/api/logs")
              [("count", JInt 7); ("level", JString "debug")])).
  left; reflexivity.
Defined.

(** X14.  When the request that was sent fails with an exception other
    than a refused connection or a bad status (a timeout, for one), the
    result is the single text block [Error: <str(e)>]. *)
Theorem other_failure_message (backend : Request -> http_outcome)
    (decode_error : string -> string) (tool : string) (arguments : dict)
    (request : Request) (cls msg : string) :
  In request (snd (call_tool backend decode_error tool arguments)) ->
  backend request = Failed (OtherException cls msg) ->
  fst (call_tool backend decode_error tool arguments)
  = Ok [TextContent ("Error: " ++ msg)].
Proof.
  intros Hsent Hanswer.
  pose proof (call_tool_sent _ _ _ _ _ Hsent) as Hbody.
  rewrite Hanswer in Hbody. cbn [answer_of] in Hbody.
  now rewrite (call_tool_raised _ _ _ _ _ _ Hbody).
Qed.

Lemma read_timeout_message :
  In (mkRequest (DEVTOOLS_BASE_URL ++ "/api/logs") [])
     (snd (call_tool backend_timing_out expecting_value "devdash_get_logs" []))
  /\ backend_timing_out (mkRequest (DEVTOOLS_BASE_URL ++ "/api/logs") [])
     = Failed (OtherException "ReadTimeout" "")
  /\ fst (call_tool backend_timing_out expecting_value "devdash_get_logs" [])
     = Ok [TextContent "Error: "].
Proof.
  split; [left; reflexivity|]. split; [reflexivity|].
  apply (other_failure_message backend_timing_out expecting_value
           "devdash_get_logs" []
           (mkRequest (DEVTOOLS_BASE_URL ++ "/api/logs") [])
           "ReadTimeout" "");
    [left; reflexivity | reflexivity].
Defined.

(** X15.  Every tool the catalog lists is handled by the dispatcher: it is
    never answered by the text for an unknown tool, whatever the arguments
    and the backend. *)
Theorem catalog_tools_are_dispatched (backend : Request -> http_outcome)
    (decode_error : string -> string) (tool : string) (arguments : dict) :
  In tool (map name list_tools) ->
  fst (call_tool backend decode_error tool arguments)
  <> Ok [TextContent ("Unknown tool: " ++ tool)].
Proof.
  intro Hin. cbn [map name list_tools In] in Hin.
  assert (forall request,
            In request (snd (call_tool backend decode_error tool arguments)) ->
            fst (call_tool backend decode_error tool arguments)
            <> Ok [TextContent ("Unknown tool: " ++ tool)]) as Hsent
    by (intros request Hr; eapply sent_not_unknown, Hr).
  destruct Hin as [<-|[<-|[<-|[<-|[<-|[]]]]]].
  - destruct (plain_tool_run backend decode_error "devdash_get_state" arguments
                ltac:(cbn; auto)) as (u & _ & Hrun).
    apply (Hsent (mkRequest u [])). rewrite call_tool_requests, Hrun. now left.
  - destruct (plain_tool_run backend decode_error "devdash_get_warnings" arguments
                ltac:(cbn; auto)) as (u & _ & Hrun).
    apply (Hsent (mkRequest u [])). rewrite call_tool_requests, Hrun. now left.
  - pose proof (screenshot_requests backend decode_error arguments) as Hreq.
    destruct (truthy (match dict_get arguments "window" with
                      | Some w => w | None => JNull end)) eqn:Ht.
    + destruct (dict_get arguments "window") as [w|]; [|discriminate Ht].
      rewrite Ht in Hreq. eapply Hsent. rewrite Hreq. now left.
    + rewrite (screenshot_falsy_window _ _ _ Ht). discriminate.
  - destruct (plain_tool_run backend decode_error "devdash_list_windows" arguments
                ltac:(cbn; auto)) as (u & _ & Hrun).
    apply (Hsent (mkRequest u [])). rewrite call_tool_requests, Hrun. now left.
  - pose proof (get_logs_requests backend decode_error arguments) as Hreq.
    destruct (get_logs_params_run arguments []) as [[p Hp]|[cls [msg Hp]]].
    + rewrite Hp in Hreq. eapply Hsent. rewrite Hreq. now left.
    + unfold call_tool, try_except, call_tool_body.
      cbn [String.eqb Ascii.eqb Bool.eqb]. unfold bind. rewrite Hp. discriminate.
Qed.

Lemma catalog_tools_are_dispatched_witness :
  In "devdash_get_logs" (map name list_tools)
  /\ fst (call_tool backend_refusing expecting_value "devdash_get_logs" [])
     <> Ok [TextContent "Unknown tool: devdash_get_logs"].
Proof.
  assert (In "devdash_get_logs" (map name list_tools)) as H by (cbn; auto 6).
  split; [exact H|].
  exact (catalog_tools_are_dispatched backend_refusing expecting_value
           "devdash_get_logs" [] H).
Defined.

(** X16.  What a schema of the catalog lists under [required] is enforced
    before the network: for every tool of the catalog and every required
    argument, a call without it returns the text block
    [Error: '<argument>' parameter is required] and sends nothing. *)
Theorem required_arguments_enforced (backend : Request -> http_outcome)
    (decode_error : string -> string) (tool : Tool) (key : string)
    (arguments : dict) :
  In tool list_tools ->
  In key (schema_required (inputSchema tool)) ->
  dict_get arguments key = None ->
  call_tool backend decode_error (name tool) arguments
  = (Ok [TextContent ("Error: '" ++ key ++ "' parameter is required")], []).
Proof.
  intros Htool Hkey Habsent.
  destruct Htool as [<-|[<-|[<-|[<-|[<-|[]]]]]]; cbn in Hkey;
    try contradiction.
  destruct Hkey as [<-|[]].
  cbn [name]. apply screenshot_falsy_window. now rewrite Habsent.
Qed.

Lemma required_arguments_enforced_witness :
  In (nth 2 list_tools (mkTool "" "" JNull)) list_tools
  /\ In "window" (schema_required (inputSchema (nth 2 list_tools (mkTool "" "" JNull))))
  /\ dict_get [("name", JString "cluster")] "window" = None
  /\ call_tool (backend_answering (mkResponse 200 "PNG")) expecting_value
       (name (nth 2 list_tools (mkTool "" "" JNull))) [("name", JString "cluster")]
     = (Ok [TextContent "Error: 'window' parameter is required"], []).
Proof.
  split; [right; right; left; reflexivity|].
  split; [left; reflexivity|]. split; [reflexivity|].
  apply (required_arguments_enforced (backend_answering (mkResponse 200 "PNG"))
           expecting_value (nth 2 list_tools (mkTool "" "" JNull)) "window"
           [("name", JString "cluster")]);
    [right; right; left; reflexivity | left; reflexivity | reflexivity].
Defined.

(** X18.  The data of an image block is well-formed base64: four characters
    for every three bytes of the body, the last group padded, and every
    character a letter, a digit, [+], [/] or [=]. *)
Theorem b64encode_shape (s : string) :
  length (b64encode s) = 4 * ((length s + 2) / 3)
  /\ string_forallb is_b64_char (b64encode s) = true.
Proof. apply (b64encode_shape_upto (length s)). lia. Qed.

(** X19.  The base64 encoding loses nothing: two bodies with the same
    encoding are the same body. *)
Theorem b64encode_injective (s s' : string) :
  b64encode s = b64encode s' -> s = s'.
Proof.
  intro H. pose proof (b64decode_b64encode s) as Hs.
  rewrite H, b64decode_b64encode in Hs. now inversion Hs.
Qed.

Lemma b64encode_injective_witness :
  b64encode "PNG" = b64encode "PNG" /\ "PNG" = "PNG".
Proof.
  split; [reflexivity|].
  exact (b64encode_injective "PNG" "PNG" eq_refl).
Defined.


(** X21.  The text for a status outside 2xx is exactly
    [Error: HTTP <code> - <body>], the code in decimal and the body as it
    came, for every tool; the body is not decoded first, so it is reported
    even when it is valid JSON or an image. *)
Theorem http_error_text (backend : Request -> http_outcome)
    (decode_error : string -> string) (tool : string) (arguments : dict)
    (request : Request) (response : Response) :
  In request (snd (call_tool backend decode_error tool arguments)) ->
  backend request = Responded response ->
  is_success response = false ->
  fst (call_tool backend decode_error tool arguments)
  = Ok [TextContent
          ("Error: HTTP " ++ str_int (status_code response) ++ " - "
           ++ text response)].
Proof.
  intros Hsent Hanswer Hstatus.
  pose proof (call_tool_sent _ _ _ _ _ Hsent) as Hbody.
  rewrite Hanswer in Hbody. cbn [answer_of] in Hbody. rewrite Hstatus in Hbody.
  now rewrite (call_tool_raised _ _ _ _ _ _ Hbody).
Qed.

Lemma http_503_for_screenshot :
  In (mkRequest (DEVTOOLS_BASE_URL ++ "/api/screenshot") [("window", JString "cluster")])
     (snd (call_tool (backend_answering (mkResponse 503 "[1, 2]")) expecting_value
             "devdash_screenshot" [("window", JString "cluster")]))
  /\ backend_answering (mkResponse 503 "[1, 2]")
       (mkRequest (DEVTOOLS_BASE_URL ++ "/api/screenshot")
          [("window", JString "cluster")])
     = Responded (mkResponse 503 "[1, 2]")
  /\ is_success (mkResponse 503 "[1, 2]") = false
  /\ fst (call_tool (backend_answering (mkResponse 503 "[1, 2]")) expecting_value
            "devdash_screenshot" [("window", JString "cluster")])
     = Ok [TextContent "Error: HTTP 503 - [1, 2]"].
Proof.
  split; [left; reflexivity|]. split; [reflexivity|]. split; [reflexivity|].
  apply (http_error_text (backend_answering (mkResponse 503 "[1, 2]")) expecting_value
           "devdash_screenshot" [("window", JString "cluster")]
           (mkRequest (DEVTOOLS_BASE_URL ++ "/api/screenshot")
              [("window", JString "cluster")])
           (mkResponse 503 "[1, 2]"));
    [left; reflexivity | reflexivity | reflexivity].
Defined.

(** When [count] makes [min] raise: it is null, a string, a list or an
    object. *)
Lemma count_kind (arguments : dict) :
  match dict_get arguments "count" with
  | Some (JInt _) | Some (JBool _) | None => False
  | _ => True
  end
  <-> exists count,
        dict_get arguments "count" = Some count
        /\ (count = JNull \/ (exists s, count = JString s)
            \/ (exists items, count = JArray items)
            \/ (exists members, count = JObject members)).
Proof.
  destruct (dict_get arguments "count") as [[|b|n|s|l|m]|]; split;
    try contradiction; try (intros _; eexists; split; [reflexivity|]; eauto 6; fail);
    try (intros (c & Hc & Hk); try discriminate Hc; inversion Hc; subst;
         destruct Hk as [Hk|[[? Hk]|[[? Hk]|[? Hk]]]]; discriminate Hk);
    try exact (fun _ => I).
Qed.

Lemma no_request_cases (backend : Request -> http_outcome)
    (decode_error : string -> string) (tool : string) (arguments : dict) :
  snd (call_tool backend decode_error tool arguments) = []
  <-> (~ In tool (map name list_tools)
       \/ (tool = "devdash_screenshot"
           /\ truthy (match dict_get arguments "window" with
                      | Some w => w
                      | None => JNull
                      end) = false)
       \/ (tool = "devdash_get_logs"
           /\ match dict_get arguments "count" with
              | Some (JInt _) | Some (JBool _) | None => False
              | _ => True
              end)).
Proof.
  destruct (in_dec string_dec tool (map name list_tools)) as [Hin|Hout].
  - cbn [map name list_tools In] in Hin.
    destruct Hin as [<-|[<-|[<-|[<-|[<-|[]]]]]].
    + destruct (plain_tool_run backend decode_error "devdash_get_state" arguments
                  ltac:(cbn; auto)) as (u & _ & Hrun).
      rewrite call_tool_requests, Hrun. cbn [snd]. split; [discriminate|].
      intros [H|[[H _]|[H _]]]; [exfalso; apply H; cbn; auto | discriminate H..].
    + destruct (plain_tool_run backend decode_error "devdash_get_warnings" arguments
                  ltac:(cbn; auto)) as (u & _ & Hrun).
      rewrite call_tool_requests, Hrun. cbn [snd]. split; [discriminate|].
      intros [H|[[H _]|[H _]]]; [exfalso; apply H; cbn; auto | discriminate H..].
    + rewrite screenshot_requests.
      destruct (dict_get arguments "window") as [w|].
      * destruct (truthy w); split; auto; try discriminate.
        intros [H|[[_ H]|[H _]]];
          [exfalso; apply H; cbn; auto 6 | discriminate H..].
      * split; auto.
    + destruct (plain_tool_run backend decode_error "devdash_list_windows" arguments
                  ltac:(cbn; auto)) as (u & _ & Hrun).
      rewrite call_tool_requests, Hrun. cbn [snd]. split; [discriminate|].
      intros [H|[[H _]|[H _]]]; [exfalso; apply H; cbn; auto 6 | discriminate H..].
    + rewrite get_logs_requests.
      destruct (dict_get arguments "count") as [c|] eqn:Hc.
      * destruct c as [|b|n|s|l|m];
          try (rewrite (get_logs_params_type_error arguments _ Hc I); cbn [fst];
               split; auto; fail);
          (destruct (get_logs_params_ok arguments) as [p Hp]; [now rewrite Hc|];
           rewrite Hp; cbn [fst]; split; [discriminate|];
           intros [H|[[H _]|[_ H]]];
           [exfalso; apply H; cbn; auto 8 | discriminate H | contradiction]).
      * destruct (get_logs_params_ok arguments) as [p Hp]; [now rewrite Hc|].
        rewrite Hp; cbn [fst]; split; [discriminate|].
        intros [H|[[H _]|[_ H]]];
          [exfalso; apply H; cbn; auto 8 | discriminate H | contradiction].
  - rewrite (call_tool_unknown _ _ tool arguments Hout). split; auto.
Qed.

(** X22.  A dispatch sends no request in exactly three cases: the name is
    not in the catalog; the tool is [devdash_screenshot] and [window] is
    missing or falsy; the tool is [devdash_get_logs] and [count] is
    supplied as null, a string, a list or an object, the values on which
    [min] raises.  An integer or boolean [count], like an absent one, lets
    the request go out. *)
Theorem no_request_iff (backend : Request -> http_outcome)
    (decode_error : string -> string) (tool : string) (arguments : dict) :
  snd (call_tool backend decode_error tool arguments) = []
  <-> (~ In tool (map name list_tools)
       \/ (tool = "devdash_screenshot"
           /\ truthy (match dict_get arguments "window" with
                      | Some w => w
                      | None => JNull
                      end) = false)
       \/ (tool = "devdash_get_logs"
           /\ exists count,
                dict_get arguments "count" = Some count
                /\ (count = JNull \/ (exists s, count = JString s)
                    \/ (exists items, count = JArray items)
                    \/ (exists members, count = JObject members)))).
Proof.
  rewrite no_request_cases, count_kind. reflexivity.
Qed.

(** X23.  Every exception raised in the [try] body, whatever its class, is
    reported as a text that begins with [Error: ]. *)
Theorem raised_text_begins_with_Error (backend : Request -> http_outcome)
    (decode_error : string -> string) (tool : string) (arguments : dict)
    (e : exn) (log : list Request) :
  call_tool_body backend decode_error tool arguments [] = (Raise e, log) ->
  exists t,
    fst (call_tool backend decode_error tool arguments)
    = Ok [TextContent ("Error: " ++ t)].
Proof.
  intro H. rewrite (call_tool_raised _ _ _ _ _ _ H).
  destruct (handlers_error_text e log) as [t Ht]. rewrite Ht. now exists t.
Qed.

Lemma raised_text_begins_with_Error_witness :
  call_tool_body backend_refusing expecting_value "devdash_get_state" [] []
  = (Raise (ConnectError "All connection attempts failed"),
     [mkRequest (DEVTOOLS_BASE_URL ++ "/api/state") []])
  /\ exists t,
       fst (call_tool backend_refusing expecting_value "devdash_get_state" [])
       = Ok [TextContent ("Error: " ++ t)].
Proof.
  split; [reflexivity|].
  apply (raised_text_begins_with_Error backend_refusing expecting_value
           "devdash_get_state" []
           (ConnectError "All connection attempts failed")
           [mkRequest (DEVTOOLS_BASE_URL ++ "/api/state") []]).
  reflexivity.
Defined.

